(** * Observability and audit logging of the message backend

    A shallow embedding of [backend/app.py]: the Redis connector with its
    retry loop, the capped recent-activity list [api_logs], the detached
    Kafka publisher, the telemetry calls of the handlers, and the handlers
    that drive them.

    Python code is effectful and may raise at every call that leaves the
    process.  Both are made explicit: a handler is a function from a
    [World] to a [result] and a new [World]; what it did is appended to the
    world's [trace]; whether a round trip to Redis, MariaDB or Kafka
    succeeds is read from the world's [faults] script. *)

From Stdlib Require Import List String Ascii ZArith Bool Arith Lia.
From Stdlib Require Import Sorting Permutation DecimalString.
Import ListNotations.

Local Open Scope list_scope.
Local Open Scope string_scope.

(** ** Values *)

(** JSON documents, as [json.loads] builds them and [jsonify] sends them.
    A Python [dict] keeps insertion order, hence the association list. *)
#[warnings="-register-all"]
Inductive json : Type :=
| JNull
| JBool (b : bool)
| JNum (n : Z)
| JStr (s : string)
| JArr (items : list json)
| JObj (fields : list (string * json)).

(** A raised exception: its class and [str(e)]. *)
Inductive exn : Type := Exn (cls : string) (msg : string).

Definition str (e : exn) : string := let (_, msg) := e in msg.

Inductive result (A : Type) : Type :=
| Ok (a : A)
| Raise (e : exn).
Arguments Ok {A} a.
Arguments Raise {A} e.

(** [str(n)] for a natural number. *)
Definition str_nat (n : nat) : string := NilZero.string_of_uint (Nat.to_uint n).

(** [str(x)] for a value that may be [None]. *)
Definition str_opt (x : option string) : string :=
  match x with Some s => s | None => "None" end.

(** Python strings are kept as their UTF-8 bytes; a byte [10xxxxxx]
    continues the character before it. *)
Definition continuation (c : ascii) : bool :=
  let n := nat_of_ascii c in ((128 <=? n)%nat && (n <? 192)%nat)%bool.

(** [len(s)]: the number of characters. *)
Fixpoint len (s : string) : nat :=
  match s with
  | EmptyString => 0
  | String c s' => if continuation c then len s' else S (len s')
  end.

(** [s[:n]]: the first [n] characters. *)
Fixpoint slice_to (n : nat) (s : string) : string :=
  match s with
  | EmptyString => EmptyString
  | String c s' =>
      if continuation c then String c (slice_to n s')
      else match n with
           | O => EmptyString
           | S m => String c (slice_to m s')
           end
  end.

(** ** The world *)

(** Calls that leave the process. *)
Inductive extcall : Type :=
| redis_ping | redis_lpush | redis_ltrim | redis_close
| redis_type | redis_llen | redis_lrange
| redis_set | redis_expire | redis_delete
| mysql_connect | cursor_execute | cursor_fetch | db_commit
| cursor_close | db_close
| kafka_producer | producer_send | producer_flush
| kafka_consumer | consumer_next | consumer_close.

Inductive severity : Type := INFO | WARNING | ERROR.

(** The closure handed to [Thread(target=_log)]: [_log] with the four
    arguments of [async_log_api_stats] it captures. *)
Inductive task : Type :=
| LogTask (endpoint method status : string) (user_id : option string).

(** What a run leaves behind, in the order it happened. *)
Inductive event : Type :=
| Call (c : extcall)
| Print (line : string)
| Sleep (seconds : Z)
| CounterAdd (instrument : string) (amount : Z) (attributes : list (string * string))
| SpanStart (name : string)
| SpanSetAttribute (key : string) (value : json)
| SpanEnd (name : string)
| Log (level : severity) (msg : string)
| ThreadStart (t : task).

Record World : Type := mkWorld {
  faults : list (option exn);          (* outcome of the next external calls *)
  trace : list event;                  (* what happened so far, oldest first *)
  api_logs : list string;              (* the Redis list [api_logs], head first *)
  redis_keys : list (string * (string * option Z));  (* plain keys, with TTL *)
  users : list (string * string);      (* table users: username, password *)
  messages : list (string * string);   (* table messages: message, created_at *)
  topic : list json;                   (* the Kafka topic [api-logs] *)
  session : option string;             (* session['user_id'] *)
  threads : list task                  (* threads started so far *)
}.

Definition set_faults (f : list (option exn)) (w : World) : World :=
  mkWorld f (trace w) (api_logs w) (redis_keys w) (users w) (messages w)
          (topic w) (session w) (threads w).

Definition emit (e : event) (w : World) : World :=
  mkWorld (faults w) ((trace w ++ [e])%list) (api_logs w) (redis_keys w) (users w)
          (messages w) (topic w) (session w) (threads w).

Definition set_api_logs (l : list string) (w : World) : World :=
  mkWorld (faults w) (trace w) l (redis_keys w) (users w) (messages w)
          (topic w) (session w) (threads w).

Definition set_redis_keys (k : list (string * (string * option Z))) (w : World) : World :=
  mkWorld (faults w) (trace w) (api_logs w) k (users w) (messages w)
          (topic w) (session w) (threads w).

Definition set_users (u : list (string * string)) (w : World) : World :=
  mkWorld (faults w) (trace w) (api_logs w) (redis_keys w) u (messages w)
          (topic w) (session w) (threads w).

Definition set_messages (m : list (string * string)) (w : World) : World :=
  mkWorld (faults w) (trace w) (api_logs w) (redis_keys w) (users w) m
          (topic w) (session w) (threads w).

Definition set_topic (t : list json) (w : World) : World :=
  mkWorld (faults w) (trace w) (api_logs w) (redis_keys w) (users w)
          (messages w) t (session w) (threads w).

Definition set_session (s : option string) (w : World) : World :=
  mkWorld (faults w) (trace w) (api_logs w) (redis_keys w) (users w)
          (messages w) (topic w) s (threads w).

Definition set_threads (t : list task) (w : World) : World :=
  mkWorld (faults w) (trace w) (api_logs w) (redis_keys w) (users w)
          (messages w) (topic w) (session w) t.

(** ** Computations that may raise *)

Definition M (A : Type) : Type := World -> result A * World.

Definition ret {A} (a : A) : M A := fun w => (Ok a, w).

Definition raise {A} (e : exn) : M A := fun w => (Raise e, w).

Definition bind {A B} (m : M A) (k : A -> M B) : M B :=
  fun w =>
    match m w with
    | (Ok a, w1) => k a w1
    | (Raise e, w1) => (Raise e, w1)
    end.

Declare Scope py_scope.
Delimit Scope py_scope with py.
Notation "x <- m ;; k" := (bind m (fun x => k))
  (at level 61, m at next level, right associativity) : py_scope.
Notation "m ;; k" := (bind m (fun _ => k))
  (at level 61, right associativity) : py_scope.
Local Open Scope py_scope.

(** [try: body  except Exception as e: handler e].  What [body] did before
    it raised stays done. *)
Definition try_except {A} (body : M A) (handler : exn -> M A) : M A :=
  fun w =>
    match body w with
    | (Ok a, w1) => (Ok a, w1)
    | (Raise e, w1) => handler e w1
    end.

(** [try: body  finally: cleanup]. *)
Definition try_finally {A} (body : M A) (cleanup : M unit) : M A :=
  fun w =>
    match body w with
    | (Ok a, w1) =>
        match cleanup w1 with
        | (Ok _, w2) => (Ok a, w2)
        | (Raise e, w2) => (Raise e, w2)
        end
    | (Raise e, w1) =>
        match cleanup w1 with
        | (Ok _, w2) => (Raise e, w2)
        | (Raise e', w2) => (Raise e', w2)
        end
    end.

(** [value m w]: what [m] returned from [w]; [run m w]: the world after. *)
Definition value {A} (m : M A) (w : World) : result A := fst (m w).
Definition run {A} (m : M A) (w : World) : World := snd (m w).

Definition tell (e : event) : M unit := fun w => (Ok tt, emit e w).

Definition modify (f : World -> World) : M unit := fun w => (Ok tt, f w).

Definition gets {A} (f : World -> A) : M A := fun w => (Ok (f w), w).

(** An external call: recorded, then it succeeds or raises as the script
    says.  An exhausted script means every later call succeeds. *)
Definition call (c : extcall) : M unit :=
  fun w =>
    let w1 := emit (Call c) w in
    match faults w1 with
    | [] => (Ok tt, w1)
    | None :: fs => (Ok tt, set_faults fs w1)
    | Some e :: fs => (Raise e, set_faults fs w1)
    end.

Definition print (line : string) : M unit := tell (Print line).

(** [time.sleep(seconds)] *)
Definition sleep (seconds : Z) : M unit := tell (Sleep seconds).

(** [with tracer.start_as_current_span(name) as span: body]: the span is
    ended on every way out of [body]. *)
Definition with_span {A} (name : string) (body : M A) : M A :=
  tell (SpanStart name) ;; try_finally body (tell (SpanEnd name)).

Definition span_set_attribute (key : string) (value : json) : M unit :=
  tell (SpanSetAttribute key value).

Definition api_counter_add (amount : Z) (attributes : list (string * string)) : M unit :=
  tell (CounterAdd "api.calls" amount attributes).

Definition db_counter_add (amount : Z) (attributes : list (string * string)) : M unit :=
  tell (CounterAdd "db.operations" amount attributes).

Definition logger_info (msg : string) : M unit := tell (Log INFO msg).
Definition logger_warning (msg : string) : M unit := tell (Log WARNING msg).
Definition logger_error (msg : string) : M unit := tell (Log ERROR msg).
(** [logger.exception] logs at severity ERROR. *)
Definition logger_exception (msg : string) : M unit := tell (Log ERROR msg).

(** ** ResilientConnector: [get_redis_connection] *)

Inductive Redis : Type := RedisClient.

Definition str_Z (z : Z) : string := NilZero.string_of_int (Z.to_int z).

Definition max_retries : nat := 3.
Definition retry_delay : Z := 2.

(** [range(n)] *)
Definition range (n : nat) : list nat := seq 0 n.

(** [redis.Redis(host=..., ...)] only builds the client object: redis-py
    opens the socket on the first command, here [ping]. *)
Definition redis_Redis : M Redis := ret RedisClient.

Definition ping (redis_client : Redis) : M unit := call redis_ping.

(** The body of [for attempt in range(max_retries)].  A [for] loop that
    runs out falls through to the end of the function, which returns
    [None]. *)
Fixpoint get_redis_connection_loop (attempts : list nat) : M (option Redis) :=
  match attempts with
  | [] => ret None
  | attempt :: rest =>
      try_except
        (redis_client <- redis_Redis ;;
         ping redis_client ;;
         ret (Some redis_client))
        (fun e =>
           if (attempt <? max_retries - 1)%nat then
             print ("Redis connection attempt " ++ str_nat (attempt + 1)
                    ++ " failed: " ++ str e ++ ". Retrying in "
                    ++ str_Z retry_delay ++ " seconds...") ;;
             sleep retry_delay ;;
             get_redis_connection_loop rest
           else
             print ("Redis connection failed after " ++ str_nat max_retries
                    ++ " attempts: " ++ str e) ;;
             raise e)
  end.

Definition get_redis_connection : M (option Redis) :=
  get_redis_connection_loop (range max_retries).

(** A method call on what [get_redis_connection] returned. *)
Definition on_client {A} (redis_client : option Redis) (method : string) (m : M A) : M A :=
  match redis_client with
  | Some _ => m
  | None => raise (Exn "AttributeError"
                       ("'NoneType' object has no attribute '" ++ method ++ "'"))
  end.

(** ** The Redis list *)

(** The elements [start .. stop] of a list, both ends included, negative
    indices counting from the tail: what LRANGE returns and LTRIM keeps. *)
Definition redis_range {A} (l : list A) (start stop : Z) : list A :=
  let llen := Z.of_nat (List.length l) in
  let start := (if start <? 0 then llen + start else start)%Z in
  let stop := (if stop <? 0 then llen + stop else stop)%Z in
  let start := (if start <? 0 then 0 else start)%Z in
  if ((start >? stop)%Z || (start >=? llen)%Z)%bool then []
  else
    let stop := (if stop >=? llen then llen - 1 else stop)%Z in
    firstn (Z.to_nat (stop - start + 1)) (skipn (Z.to_nat start) l).

(** The commands below are those on the key [api_logs], the only list the
    backend keeps. *)
Definition lpush (value : string) : M unit :=
  call redis_lpush ;; modify (fun w => set_api_logs (value :: api_logs w) w).

Definition ltrim (start stop : Z) : M unit :=
  call redis_ltrim ;;
  modify (fun w => set_api_logs (redis_range (api_logs w) start stop) w).

Definition lrange (start stop : Z) : M (list string) :=
  call redis_lrange ;; gets (fun w => redis_range (api_logs w) start stop).

Definition llen : M Z :=
  call redis_llen ;; gets (fun w => Z.of_nat (List.length (api_logs w))).

(** TYPE of the key: Redis drops a list when it becomes empty. *)
Definition type : M string :=
  call redis_type ;;
  gets (fun w => match api_logs w with [] => "none" | _ => "list" end).

Definition close : M unit := call redis_close.

(** ** Sorting *)

(** [l.sort(key=key, reverse=True)] on string keys: descending, and stable
    (items with equal keys keep their order). *)
Section Sort.

Context {A : Type} (key : A -> string).

Fixpoint insert_reverse (x : A) (l : list A) : list A :=
  match l with
  | [] => [x]
  | y :: l' =>
      if String.leb (key y) (key x) then x :: y :: l'
      else y :: insert_reverse x l'
  end.

Definition sort_reverse (l : list A) : list A :=
  fold_right insert_reverse [] l.

(** [a] may stand before [b] in a list sorted by [key], largest first. *)
Definition above (a b : A) : Prop := String.leb (key b) (key a) = true.

End Sort.

Section Backend.

(** The codecs and the password hashing come from libraries ([json],
    [werkzeug.security]); the handlers are verified for any of them.
    [json_loads] is [None] where [json.loads] raises. *)
Variable json_dumps : json -> string.
Variable json_loads : string -> option json.
Variable generate_password_hash : string -> string.
Variable check_password_hash : string -> string -> bool.

(** ** RecentActivityLog: [log_to_redis] and [get_redis_logs] *)

(** [now] is what [datetime.now().isoformat()] reads. *)
Definition log_entry (now : string) (action details : string) : json :=
  JObj [("timestamp", JStr now);
        ("action", JStr action);
        ("details", JStr details)].

(** The [try] block of [log_to_redis]. *)
Definition log_to_redis_try (now : string) (action details : string) : M unit :=
  redis_client <- get_redis_connection ;;
  let log_entry := log_entry now action details in
  on_client redis_client "lpush" (lpush (json_dumps log_entry)) ;;
  on_client redis_client "ltrim" (ltrim 0 99) ;;
  on_client redis_client "close" close.

Definition log_to_redis (now : string) (action details : string) : M unit :=
  try_except
    (log_to_redis_try now action details)
    (fun e => print ("Redis logging error: " ++ str e)).

(** An HTTP response: the JSON body and the status code. *)
Definition response : Type := json * nat.

Definition jsonify (body : json) : response := (body, 200%nat).

Definition error_body (message : string) : json :=
  JObj [("status", JStr "error"); ("message", JStr message)].

(** One pass of [for item in raw] with its inner [try]: an item that
    [json.loads] rejects is kept under the key [raw]. *)
Definition load_item (item : string) : json :=
  match json_loads item with
  | Some entry => entry
  | None => JObj [("raw", JStr item)]
  end.

Fixpoint load_items (raw : list string) (out : list json) : list json :=
  match raw with
  | [] => out
  | item :: rest => load_items rest (out ++ [load_item item])%list
  end.

Definition get_redis_logs : M response :=
  with_span "get_redis_logs"
    (try_except
       (redis_client <- get_redis_connection ;;
        key_type <- on_client redis_client "type" type ;;
        span_set_attribute "redis.key_type" (JStr key_type) ;;
        total <- on_client redis_client "llen" llen ;;
        span_set_attribute "redis.len" (JNum total) ;;
        raw <- on_client redis_client "lrange" (lrange (-100) (-1)) ;;
        let out := load_items raw [] in
        let out := rev out in
        ret (jsonify (JArr out)))
       (fun e =>
          logger_exception "redis logs error" ;;
          span_set_attribute "error" (JBool true) ;;
          span_set_attribute "error.message" (JStr (str e)) ;;
          ret (error_body (str e), 500%nat))).

(** ** AuditPublisher: [async_log_api_stats] *)

(** A producer and the records it has accepted and not yet flushed. *)
Record KafkaProducer : Type := mkProducer { buffered : list json }.

Definition get_kafka_producer : M KafkaProducer :=
  call kafka_producer ;; ret (mkProducer []).

Definition send (producer : KafkaProducer) (value : json) : M KafkaProducer :=
  call producer_send ;; ret (mkProducer (buffered producer ++ [value])%list).

Definition flush (producer : KafkaProducer) : M unit :=
  call producer_flush ;;
  modify (fun w => set_topic (topic w ++ buffered producer)%list w).

Definition json_opt (x : option string) : json :=
  match x with Some s => JStr s | None => JNull end.

(** The dictionary [log_data] that [_log] builds. *)
Definition log_data (endpoint method status : string) (user_id : option string)
           (now : string) : json :=
  JObj [("timestamp", JStr now);
        ("endpoint", JStr endpoint);
        ("method", JStr method);
        ("status", JStr status);
        ("user_id", json_opt user_id);
        ("message", JStr (str_opt user_id ++ "가 " ++ method ++ " "
                          ++ endpoint ++ " 호출 (" ++ status ++ ")"))].

(** The inner function [_log]; it runs on the thread, where [now] is read. *)
Definition _log (endpoint method status : string) (user_id : option string)
           (now : string) : M unit :=
  try_except
    (producer <- get_kafka_producer ;;
     let log_data := log_data endpoint method status user_id now in
     producer <- send producer log_data ;;
     flush producer)
    (fun e => print ("Kafka logging error: " ++ str e)).

(** [Thread(target=_log).start()]: the closure is handed to a new thread and
    the caller goes on. *)
Definition async_log_api_stats (endpoint method status : string)
           (user_id : option string) : M unit :=
  let t := LogTask endpoint method status user_id in
  tell (ThreadStart t) ;;
  modify (fun w => set_threads (threads w ++ [t])%list w).

(** What a started thread does when it is scheduled. *)
Definition run_thread (t : task) (now : string) : M unit :=
  match t with
  | LogTask endpoint method status user_id => _log endpoint method status user_id now
  end.

(** ** Requests, session, MariaDB *)

(** [request.json]: a JSON object with string values, or no usable body. *)
Definition request : Type := option (list (string * string)).

Definition request_json (r : request) : M (list (string * string)) :=
  match r with
  | Some data => ret data
  | None => raise (Exn "UnsupportedMediaType" "415 Unsupported Media Type")
  end.

(** [data.get(key)] *)
Fixpoint dict_get (data : list (string * string)) (key : string) : option string :=
  match data with
  | [] => None
  | (k, v) :: rest => if String.eqb k key then Some v else dict_get rest key
  end.

(** [data[key]] *)
Definition subscript (data : list (string * string)) (key : string) : M string :=
  match dict_get data key with
  | Some v => ret v
  | None => raise (Exn "KeyError" ("'" ++ key ++ "'"))
  end.

(** [not x] for a string or [None]. *)
Definition not_ (x : option string) : bool :=
  match x with
  | None => true
  | Some EmptyString => true
  | Some _ => false
  end.

(** [session['user_id']] *)
Definition session_user_id : M string :=
  s <- gets session ;;
  match s with
  | Some user_id => ret user_id
  | None => raise (Exn "KeyError" "'user_id'")
  end.

Definition login_required (f : M response) : M response :=
  s <- gets session ;;
  match s with
  | None => ret (error_body "로그인이 필요합니다", 401%nat)
  | Some _ => f
  end.

(** A connection and the rows written on it since the last commit. *)
Record Connection : Type := mkConnection {
  pending_users : list (string * string);
  pending_messages : list (string * string)
}.

Definition get_db_connection : M Connection :=
  call mysql_connect ;; ret (mkConnection [] []).

Definition insert_message (db : Connection) (message created_at : string) : M Connection :=
  call cursor_execute ;;
  ret (mkConnection (pending_users db)
                    (pending_messages db ++ [(message, created_at)])%list).

Definition insert_user (db : Connection) (username password : string) : M Connection :=
  call cursor_execute ;;
  ret (mkConnection (pending_users db ++ [(username, password)])%list
                    (pending_messages db)).

Definition commit (db : Connection) : M unit :=
  call db_commit ;;
  modify (fun w => set_messages (messages w ++ pending_messages db)%list
                     (set_users (users w ++ pending_users db)%list w)).

(** [SELECT ... FROM users WHERE username = %s] followed by [fetchone()];
    the comparison of the column with the parameter is taken as equality of
    strings. *)
Definition select_user (username : string) : M (option (string * string)) :=
  call cursor_execute ;;
  call cursor_fetch ;;
  gets (fun w => find (fun row => String.eqb (fst row) username) (users w)).

(** A [try] whose first statement binds a name that the [except] clause
    reads: the handler gets [None] when that statement itself raised and
    the name is unbound. *)
Definition try_binding {A B} (first : M A) (rest : A -> M B)
           (handler : option A -> exn -> M B) : M B :=
  fun w =>
    match first w with
    | (Raise e, w1) => handler None e w1
    | (Ok a, w1) =>
        match rest a w1 with
        | (Ok b, w2) => (Ok b, w2)
        | (Raise e, w2) => handler (Some a) e w2
        end
    end.

(** Reading a local variable. *)
Definition local {A} (name : string) (x : option A) : M A :=
  match x with
  | Some a => ret a
  | None => raise (Exn "UnboundLocalError"
                       ("cannot access local variable '" ++ name
                        ++ "' where it is not associated with a value"))
  end.

(** ** The handlers *)

(** [POST /db/message].  [created_at] and [now] are the two clock readings:
    the one sent with the INSERT and the one [log_to_redis] takes. *)
Definition save_to_db (r : request) (created_at now : string) : M response :=
  login_required
    (with_span "save_message"
       (try_binding
          session_user_id
          (fun user_id =>
             span_set_attribute "user.id" (JStr user_id) ;;
             db <- get_db_connection ;;
             data <- request_json r ;;
             message <- subscript data "message" ;;
             span_set_attribute "message.length" (JNum (Z.of_nat (len message))) ;;
             db <- insert_message db message created_at ;;
             commit db ;;
             call cursor_close ;;
             call db_close ;;
             api_counter_add 1 [("endpoint", "/db/message");
                                ("method", "POST"); ("status", "success")] ;;
             db_counter_add 1 [("operation", "insert"); ("table", "messages")] ;;
             log_to_redis now "db_insert"
                          ("Message saved: " ++ slice_to 30 message ++ "...") ;;
             logger_info ("User " ++ user_id ++ " saved message: "
                          ++ slice_to 30 message ++ "...") ;;
             async_log_api_stats "/db/message" "POST" "success" (Some user_id) ;;
             ret (jsonify (JObj [("status", JStr "success")])))
          (fun user_id e =>
             span_set_attribute "error" (JBool true) ;;
             span_set_attribute "error.message" (JStr (str e)) ;;
             api_counter_add 1 [("endpoint", "/db/message");
                                ("method", "POST"); ("status", "error")] ;;
             logger_error ("Error saving message: " ++ str e) ;;
             user_id <- local "user_id" user_id ;;
             async_log_api_stats "/db/message" "POST" "error" (Some user_id) ;;
             log_to_redis now "db_insert_error" (str e) ;;
             ret (error_body (str e), 500%nat)))).

Definition message_row (row : string * string) : json :=
  JObj [("message", JStr (fst row)); ("created_at", JStr (snd row))].

(** [GET /db/messages] *)
Definition get_from_db : M response :=
  login_required
    (try_except
       (user_id <- session_user_id ;;
        db <- get_db_connection ;;
        call cursor_execute ;;
        call cursor_fetch ;;
        rows <- gets (fun w => sort_reverse snd (messages w)) ;;
        call cursor_close ;;
        call db_close ;;
        async_log_api_stats "/db/messages" "GET" "success" (Some user_id) ;;
        ret (jsonify (JArr (map message_row rows))))
       (fun e =>
          s <- gets session ;;
          match s with
          | Some user_id =>
              async_log_api_stats "/db/messages" "GET" "error" (Some user_id)
          | None => ret tt
          end ;;
          ret (error_body (str e), 500%nat))).

(** [POST /register].  [data.get] gives [None] for a missing key, and
    [not None] holds like [not ''], so both tests of the [if] fall in the
    last branch. *)
Definition register (r : request) : M response :=
  try_except
    (data <- request_json r ;;
     let username := dict_get data "username" in
     let password := dict_get data "password" in
     match username, password with
     | Some username, Some password =>
         if (not_ (Some username) || not_ (Some password))%bool then
           ret (error_body "사용자명과 비밀번호는 필수입니다", 400%nat)
         else
           let hashed_password := generate_password_hash password in
           db <- get_db_connection ;;
           row <- select_user username ;;
           match row with
           | Some _ => ret (error_body "이미 존재하는 사용자명입니다", 400%nat)
           | None =>
               db <- insert_user db username hashed_password ;;
               commit db ;;
               call cursor_close ;;
               call db_close ;;
               ret (jsonify (JObj [("status", JStr "success");
                                   ("message", JStr "회원가입이 완료되었습니다")]))
           end
     | _, _ => ret (error_body "사용자명과 비밀번호는 필수입니다", 400%nat)
     end)
    (fun e =>
       print ("Register error: " ++ str e) ;;
       ret (error_body (str e), 500%nat)).

(** SET and EXPIRE on a plain key. *)
Definition redis_set_key (key value : string) : M unit :=
  call redis_set ;;
  modify (fun w =>
            set_redis_keys
              ((key, (value, None))
                 :: filter (fun kv => negb (String.eqb (fst kv) key)) (redis_keys w)) w).

Definition expire (key : string) (seconds : Z) : M unit :=
  call redis_expire ;;
  modify (fun w =>
            set_redis_keys
              (map (fun kv => if String.eqb (fst kv) key
                              then (fst kv, (fst (snd kv), Some seconds))
                              else kv) (redis_keys w)) w).

(** [POST /login] *)
Definition login (r : request) (now : string) : M response :=
  with_span "login"
    (try_except
       (data <- request_json r ;;
        let username := dict_get data "username" in
        let password := dict_get data "password" in
        span_set_attribute "user.username" (json_opt username) ;;
        match username, password with
        | Some username, Some password =>
            if (not_ (Some username) || not_ (Some password))%bool then
              api_counter_add 1 [("endpoint", "/login");
                                 ("method", "POST"); ("status", "error")] ;;
              ret (error_body "사용자명과 비밀번호는 필수입니다", 400%nat)
            else
              db <- get_db_connection ;;
              user <- select_user username ;;
              call cursor_close ;;
              call db_close ;;
              db_counter_add 1 [("operation", "select"); ("table", "users")] ;;
              if match user with
                 | Some row => check_password_hash (snd row) password
                 | None => false
                 end
              then
                modify (set_session (Some username)) ;;
                try_except
                  (redis_client <- get_redis_connection ;;
                   let session_data :=
                     JObj [("user_id", JStr username); ("login_time", JStr now)] in
                   on_client redis_client "set"
                     (redis_set_key ("session:" ++ username) (json_dumps session_data)) ;;
                   on_client redis_client "expire"
                     (expire ("session:" ++ username) 3600))
                  (fun redis_error =>
                     logger_warning ("Redis session error: " ++ str redis_error)) ;;
                api_counter_add 1 [("endpoint", "/login");
                                   ("method", "POST"); ("status", "success")] ;;
                logger_info ("User " ++ username ++ " logged in successfully") ;;
                ret (jsonify (JObj [("status", JStr "success");
                                    ("message", JStr "로그인 성공");
                                    ("username", JStr username)]))
              else
                api_counter_add 1 [("endpoint", "/login");
                                   ("method", "POST"); ("status", "error")] ;;
                logger_warning ("Failed login attempt for user: " ++ username) ;;
                ret (error_body "잘못된 인증 정보", 401%nat)
        | _, _ =>
            api_counter_add 1 [("endpoint", "/login");
                               ("method", "POST"); ("status", "error")] ;;
            ret (error_body "사용자명과 비밀번호는 필수입니다", 400%nat)
        end)
       (fun e =>
          span_set_attribute "error" (JBool true) ;;
          span_set_attribute "error.message" (JStr (str e)) ;;
          api_counter_add 1 [("endpoint", "/login");
                             ("method", "POST"); ("status", "error")] ;;
          logger_error ("Login error: " ++ str e) ;;
          ret (error_body "로그인 처리 중 오류가 발생했습니다", 500%nat))).

(** ** AuditPublisher: [get_kafka_logs] *)

(** [message.value] of a record on the topic, as [_log] writes them. *)
Record AuditEvent : Type := mkAuditEvent {
  ev_timestamp : string;
  ev_endpoint : string;
  ev_method : string;
  ev_status : string;
  ev_user_id : option string;
  ev_message : string
}.

Definition audit_json (ev : AuditEvent) : json :=
  JObj [("timestamp", JStr (ev_timestamp ev));
        ("endpoint", JStr (ev_endpoint ev));
        ("method", JStr (ev_method ev));
        ("status", JStr (ev_status ev));
        ("user_id", json_opt (ev_user_id ev));
        ("message", JStr (ev_message ev))].

(** [for message in consumer].  [incoming] are the records the broker
    delivers, each within [consumer_timeout_ms] of the one before; when it
    is used up the consumer waits out the timeout and the iteration ends. *)
Fixpoint consume (incoming : list AuditEvent) (logs : list AuditEvent)
  : M (list AuditEvent) :=
  match incoming with
  | [] => call consumer_next ;; ret logs
  | message :: rest =>
      call consumer_next ;;
      let logs := (logs ++ [mkAuditEvent (ev_timestamp message)
                                         (ev_endpoint message)
                                         (ev_method message)
                                         (ev_status message)
                                         (ev_user_id message)
                                         (ev_message message)])%list in
      if (100 <=? List.length logs)%nat then ret logs
      else consume rest logs
  end.

(** [GET /logs/kafka] *)
Definition get_kafka_logs (incoming : list AuditEvent) : M response :=
  login_required
    (try_except
       (call kafka_consumer ;;
        logs <- try_finally (consume incoming []) (call consumer_close) ;;
        let logs := sort_reverse ev_timestamp logs in
        ret (jsonify (JArr (map audit_json logs))))
       (fun e =>
          print ("Kafka log retrieval error: " ++ str e) ;;
          ret (error_body (str e), 500%nat))).


End Backend.

(** * What the properties speak of *)

(** The world at start-up: nothing stored, nobody logged in, no failure
    scheduled. *)
Definition empty_world : World := mkWorld [] [] [] [] [] [] [] None [].

(** No failure is scheduled: every external call succeeds. *)
Definition quiet (w : World) : Prop := Forall (fun f => f = None) (faults w).

(** The outcome the script holds for the [k]-th external call from now. *)
Definition fault_at (w : World) (k : nat) : option exn := nth k (faults w) None.

(** The network side of a trace: external calls and pauses. *)
Definition timing (evs : list event) : list event :=
  filter (fun ev => match ev with Call _ | Sleep _ => true | _ => false end) evs.

(** [n] pings with a pause of 2 between consecutive ones. *)
Fixpoint ping_schedule (n : nat) : list event :=
  match n with
  | O => []
  | S O => [Call redis_ping]
  | S m => Call redis_ping :: Sleep 2 :: ping_schedule m
  end.

(** A run of [log_to_redis] calls, one after the other, each given as its
    clock reading, action and details. *)
Fixpoint log_all (json_dumps : json -> string)
         (calls : list (string * string * string)) : M unit :=
  match calls with
  | [] => ret tt
  | (now, action, details) :: rest =>
      log_to_redis json_dumps now action details ;; log_all json_dumps rest
  end.

(** The string such a call pushes. *)
Definition pushed (json_dumps : json -> string)
           (call : string * string * string) : string :=
  let '(now, action, details) := call in
  json_dumps (log_entry now action details).

(** The steps of reporting, as they show in a trace. *)
Inductive step : Type :=
| StepCounter      (* an increment of [api.calls] *)
| StepSpanError    (* the error attributes on the span *)
| StepLogLine      (* a line of the logger *)
| StepRecord       (* [log_to_redis] at work *)
| StepPublish.     (* [async_log_api_stats] starting its thread *)

Definition step_eqb (a b : step) : bool :=
  match a, b with
  | StepCounter, StepCounter | StepSpanError, StepSpanError
  | StepLogLine, StepLogLine | StepRecord, StepRecord
  | StepPublish, StepPublish => true
  | _, _ => false
  end.

Definition step_of (ev : event) : option step :=
  match ev with
  | CounterAdd instrument _ _ =>
      if String.eqb instrument "api.calls" then Some StepCounter else None
  | SpanSetAttribute key _ =>
      if (String.eqb key "error" || String.eqb key "error.message")%bool
      then Some StepSpanError else None
  | Log _ _ => Some StepLogLine
  | Call redis_ping | Call redis_lpush | Call redis_ltrim | Call redis_close =>
      Some StepRecord
  | ThreadStart _ => Some StepPublish
  | _ => None
  end.

(** The steps of a trace in order, a run of events of one step counted once. *)
Fixpoint steps_from (last : option step) (evs : list event) : list step :=
  match evs with
  | [] => []
  | ev :: rest =>
      match step_of ev, last with
      | None, _ => steps_from last rest
      | Some s, Some s' =>
          if step_eqb s s' then steps_from last rest
          else s :: steps_from (Some s) rest
      | Some s, None => s :: steps_from (Some s) rest
      end
  end.

Definition steps (evs : list event) : list step := steps_from None evs.

(** The order in which the facade is specified to report: counter, span
    tagging and log line, record, publish. *)
Definition report_steps (error : bool) : list step :=
  if error
  then [StepCounter; StepSpanError; StepLogLine; StepRecord; StepPublish]
  else [StepCounter; StepLogLine; StepRecord; StepPublish].

(** [attributes[key]] of a counter increment. *)
Fixpoint label (attributes : list (string * string)) (key : string) : option string :=
  match attributes with
  | [] => None
  | (k, v) :: rest => if String.eqb k key then Some v else label rest key
  end.

(** The amounts added to [api.calls] under a given [status] label. *)
Fixpoint api_increments (status : string) (evs : list event) : list Z :=
  match evs with
  | [] => []
  | CounterAdd instrument amount attributes :: rest =>
      if (String.eqb instrument "api.calls"
          && match label attributes "status" with
             | Some s => String.eqb s status
             | None => false
             end)%bool
      then amount :: api_increments status rest
      else api_increments status rest
  | _ :: rest => api_increments status rest
  end.

Definition is_execute (ev : event) : bool :=
  match ev with Call cursor_execute => true | _ => false end.

Definition is_next (ev : event) : bool :=
  match ev with Call consumer_next => true | _ => false end.

(** How many times the iterator is asked for a record when there is room
    for [room] more and [available] are delivered: once per record taken,
    and once more, to wait out the timeout, unless the cap stopped the loop
    first. *)
Definition reads (room available : nat) : nat :=
  if (room <=? available)%nat then room else S available.

(** Sorted by timestamp, largest first. *)
Definition newest_first : AuditEvent -> AuditEvent -> Prop := above ev_timestamp.

(** Stand-ins for the library functions, to run the handlers with: a
    serializer for flat objects (no quoting), a decoder that takes nothing
    for JSON, and a salt-free password hash. *)
Definition sample_dumps (j : json) : string :=
  match j with
  | JObj fields =>
      "{" ++ String.concat ", "
               (map (fun kv => fst kv ++ ": "
                               ++ match snd kv with JStr s => s | _ => "null" end)
                    fields)
      ++ "}"
  | JStr s => s
  | _ => "null"
  end.

Definition sample_loads (item : string) : option json := None.

Definition sample_hash (password : string) : string := "hash:" ++ password.

Definition sample_check (pwhash password : string) : bool :=
  String.eqb pwhash (sample_hash password).

(** 101 calls of [log_to_redis], numbered by their clock reading. *)
Definition sample_calls : list (string * string * string) :=
  map (fun n => (str_nat n, "db_insert", "Message saved: hello...")) (seq 0 101).

(** * Properties *)

(** ** Tactics *)

(** Unfolding the combinators and the operations on the world, and
    nothing else (strings stay as they are written). *)
Ltac py_unfold :=
  cbv beta iota zeta delta
    [bind ret raise try_except try_finally try_binding local tell modify gets
     call print sleep with_span span_set_attribute api_counter_add
     db_counter_add logger_info logger_warning logger_error logger_exception
     value run fst snd
     emit set_faults set_api_logs set_redis_keys set_users set_messages
     set_topic set_session set_threads
     faults trace api_logs redis_keys users messages topic session threads
     redis_Redis ping on_client lpush ltrim lrange llen type close
     get_redis_connection get_redis_connection_loop range seq max_retries
     Nat.ltb Nat.leb Nat.sub
     log_to_redis log_to_redis_try
     get_kafka_producer send flush buffered _log async_log_api_stats run_thread
     request_json subscript session_user_id login_required
     get_db_connection insert_message insert_user commit select_user
     pending_users pending_messages redis_set_key expire not_ orb negb
     json_opt jsonify].

Ltac quiet_call :=
  match goal with
  | H : Forall _ ?f |- context [match ?f with [] => _ | _ => _ end] =>
      destruct f as [|[?|] ?];
      [ | exfalso; inversion H; discriminate | apply Forall_inv_tail in H ];
      py_unfold
  end.

Ltac next_call :=
  match goal with
  | |- context [match ?f with [] => _ | _ => _ end] =>
      is_var f; destruct f as [|[?|] ?]; py_unfold
  end.

Ltac sym_step :=
  match goal with
  | |- context [match ?f with [] => _ | _ :: _ => _ end] =>
      is_var f; destruct f as [|[?|] ?]
  | |- context [match ?r with Some _ => _ | None => _ end] =>
      is_var r; destruct r
  | |- context [match dict_get ?d ?k with Some _ => _ | None => _ end] =>
      destruct (dict_get d k) eqn:?
  | |- context [match find ?p ?l with Some _ => _ | None => _ end] =>
      destruct (find p l) eqn:?
  | |- context [match ?s with EmptyString => _ | String _ _ => _ end] =>
      is_var s; destruct s
  end; py_unfold.

Ltac new_events :=
  first [ rewrite <- ?app_assoc; reflexivity | symmetry; apply app_nil_r ].

Ltac some_fault :=
  repeat first [ apply Exists_cons_hd; discriminate | apply Exists_cons_tl ].

Ltac range_tests :=
  repeat match goal with
         | |- context [(?a <? ?b)%Z] => destruct (Z.ltb_spec a b)
         | |- context [(?a >? ?b)%Z] => rewrite (Z.gtb_ltb a b)
         | |- context [(?a >=? ?b)%Z] => rewrite (Z.geb_leb a b)
         | |- context [(?a <=? ?b)%Z] => destruct (Z.leb_spec a b)
         end; cbn [orb]; try lia.

(** ** Shared facts *)

Lemma try_except_value {A} (body : M A) (handler : exn -> M A) (w : World) :
  (forall e w1, exists a, value (handler e) w1 = Ok a) ->
  exists a, value (try_except body handler) w = Ok a.
Proof.
  intros Hh. unfold value, try_except.
  destruct (body w) as [[a|e] w1]; cbn.
  - now exists a.
  - apply Hh.
Qed.

Lemma call_outcome (c : extcall) (w : World) :
  exists fs,
    (call c w = (Ok tt, set_faults fs (emit (Call c) w)) /\
     (quiet w -> Forall (fun f => f = None) fs))
    \/ (exists e, call c w = (Raise e, set_faults fs (emit (Call c) w)) /\ ~ quiet w).
Proof.
  destruct w as [f tr logs keys us ms tp ss th]. unfold call, quiet. cbn.
  destruct f as [|[e|] fs].
  - exists []. left. split; [reflexivity | auto].
  - exists fs. right. exists e. split; [reflexivity|].
    intros H. inversion H. discriminate.
  - exists fs. left. split; [reflexivity|]. intros H. now inversion H.
Qed.

Lemma redis_range_head {A} (l : list A) : redis_range l 0 99 = firstn 100 l.
Proof.
  unfold redis_range. cbv zeta.
  change (0 <? 0)%Z with false. change (99 <? 0)%Z with false. cbv iota.
  range_tests.
  - destruct l; [reflexivity | cbn in *; lia].
  - replace (Z.to_nat (Z.of_nat (List.length l) - 1 - 0 + 1)) with (List.length l) by lia.
    cbn [Z.to_nat skipn]. rewrite firstn_all. symmetry. apply firstn_all2. lia.
  - reflexivity.
Qed.

Lemma redis_range_tail {A} (l : list A) :
  redis_range l (-100) (-1) = skipn (List.length l - 100) l.
Proof.
  unfold redis_range. cbv zeta.
  change (-100 <? 0)%Z with true. change (-1 <? 0)%Z with true. cbv iota.
  range_tests.
  - destruct l; [reflexivity | cbn in *; lia].
  - replace (List.length l - 100)%nat with 0%nat by lia.
    cbn [Z.to_nat skipn]. apply firstn_all2. lia.
  - replace (Z.to_nat (Z.of_nat (List.length l) + -100)) with (List.length l - 100)%nat by lia.
    apply firstn_all2. rewrite length_skipn. lia.
Qed.

Arguments redis_range : simpl never.

Lemma firstn_app_firstn {A} (n : nat) (l m : list A) :
  firstn n (l ++ firstn n m) = firstn n (l ++ m).
Proof.
  rewrite !firstn_app, firstn_firstn.
  f_equal. f_equal. lia.
Qed.

(** ** The connector *)

Ltac small_index k :=
  destruct k as [|[|[|k]]]; cbn in *; try lia; try discriminate; try congruence.

Ltac connector_case n :=
  exists n; eexists;
  split; [rewrite <- ?app_assoc; reflexivity|];
  cbn; repeat split; try lia; try reflexivity;
  [ intros k Hk; small_index k ..
  | intros [e He]; try discriminate; intros k Hk; small_index k
  | intros H; first [ eexists; reflexivity
                    | exfalso;
                      first [ apply (H 0%nat); [lia | reflexivity]
                            | apply (H 1%nat); [lia | reflexivity]
                            | apply (H 2%nat); [lia | reflexivity] ] ] ].

(** C7: [get_redis_connection] pings at most 3 times, with a pause of 2
    between consecutive attempts and none after the last; it returns a
    client only when the ping of its last attempt succeeded, every attempt
    before having failed; and it raises exactly when all 3 attempts fail,
    the exception being the one of the third attempt. *)
Theorem get_redis_connection_retries (w : World) :
  exists (n : nat) (evs : list event),
    trace (run get_redis_connection w) = (trace w ++ evs)%list /\
    (1 <= n <= 3)%nat /\
    timing evs = ping_schedule n /\
    (forall k, (k < n - 1)%nat -> fault_at w k <> None) /\
    match value get_redis_connection w with
    | Ok redis_client => redis_client = Some RedisClient /\ fault_at w (n - 1) = None
    | Raise e => n = 3%nat /\ fault_at w 2 = Some e
    end /\
    ((exists e, value get_redis_connection w = Raise e) <->
     (forall k, (k < 3)%nat -> fault_at w k <> None)).
Proof.
  destruct w as [f tr logs keys us ms tp ss th].
  unfold fault_at, run, value.
  destruct f as [|[e1|] [|[e2|] [|[e3|] fs]]]; cbn;
    first [ solve [connector_case 1%nat]
          | solve [connector_case 2%nat]
          | solve [connector_case 3%nat] ].
Qed.

(** ** The recent-activity list *)

Section RecentActivity.

Variable json_dumps : json -> string.
Variable json_loads : string -> option json.

Lemma log_to_redis_quiet (now action details : string) (w : World) :
  quiet w ->
  exists w',
    log_to_redis json_dumps now action details w = (Ok tt, w') /\
    quiet w' /\
    api_logs w' = firstn 100 (pushed json_dumps (now, action, details) :: api_logs w).
Proof.
  destruct w as [f tr logs keys us ms tp ss th].
  unfold quiet; cbn [faults]. intros H.
  py_unfold.
  repeat quiet_call;
    (eexists; split; [reflexivity|]; split;
     [unfold quiet; cbn [faults]; auto | unfold pushed, log_entry; cbn [api_logs]; apply redis_range_head]).
Qed.

Lemma log_all_quiet (calls : list (string * string * string)) :
  forall (c : string * string * string) (w : World),
    quiet w ->
    exists w',
      log_all json_dumps (c :: calls) w = (Ok tt, w') /\
      quiet w' /\
      api_logs w' = firstn 100 (rev (map (pushed json_dumps) (c :: calls)) ++ api_logs w)%list.
Proof.
  induction calls as [|c' calls IH]; intros [[now action] details] w Hq.
  - destruct (log_to_redis_quiet now action details w Hq) as (w1 & E & Hq1 & L).
    exists w1. cbn [log_all]. unfold bind. rewrite E. cbn. auto.
  - destruct (log_to_redis_quiet now action details w Hq) as (w1 & E & Hq1 & L).
    destruct (IH c' w1 Hq1) as (w2 & E2 & Hq2 & L2).
    exists w2. change (log_all json_dumps ((now, action, details) :: c' :: calls))
      with (log_to_redis json_dumps now action details ;; log_all json_dumps (c' :: calls)).
    unfold bind at 1. rewrite E, E2. repeat split; auto.
    rewrite L2, L, firstn_app_firstn.
    change (map (pushed json_dumps) ((now, action, details) :: c' :: calls))
      with (pushed json_dumps (now, action, details) :: map (pushed json_dumps) (c' :: calls)).
    cbn [rev]. rewrite <- app_assoc. reflexivity.
Qed.

Lemma load_items_map (raw : list string) (out : list json) :
  load_items json_loads raw out = (out ++ map (load_item json_loads) raw)%list.
Proof.
  revert out. induction raw as [|item raw IH]; intros out; cbn.
  - now rewrite app_nil_r.
  - rewrite IH, <- app_assoc. reflexivity.
Qed.

Lemma get_redis_logs_quiet (w : World) :
  quiet w ->
  value (get_redis_logs json_loads) w
  = Ok (JArr (rev (map (load_item json_loads)
                       (skipn (List.length (api_logs w) - 100) (api_logs w)))),
        200%nat).
Proof.
  destruct w as [f tr logs keys us ms tp ss th].
  unfold quiet; cbn [faults api_logs]. intros H.
  unfold get_redis_logs. py_unfold.
  repeat quiet_call; rewrite load_items_map, redis_range_tail; reflexivity.
Qed.

Lemma get_redis_logs_returns (w : World) :
  exists resp, value (get_redis_logs json_loads) w = Ok resp.
Proof.
  unfold get_redis_logs, with_span, value, bind, tell, try_finally.
  cbn [fst snd].
  match goal with
  | |- context [try_except ?b ?h ?w1] =>
      destruct (try_except_value b h w1) as [resp E]
  end.
  - intros e w1. py_unfold. eauto.
  - unfold value in E.
    match goal with
    | E : fst ?x = _ |- _ => destruct x as [[r|e] w2]; cbn in E; [|discriminate]
    end.
    inversion E; subst. cbn. eauto.
Qed.

(** C3: [log_to_redis] returns normally from every world, whatever fails
    inside it; the exception its [try] block raised is printed and nothing
    else is done; in particular, when all three connection attempts fail,
    [get_redis_connection] raises the third error, [log_to_redis] still
    returns, and the list [api_logs] is untouched. *)
Theorem log_to_redis_never_raises (now action details : string) (w : World) :
  value (log_to_redis json_dumps now action details) w = Ok tt /\
  (forall e,
     value (log_to_redis_try json_dumps now action details) w = Raise e ->
     run (log_to_redis json_dumps now action details) w
     = emit (Print ("Redis logging error: " ++ str e))
            (run (log_to_redis_try json_dumps now action details) w)) /\
  (forall e1 e2 e3 fs,
     faults w = Some e1 :: Some e2 :: Some e3 :: fs ->
     value get_redis_connection w = Raise e3 /\
     value (log_to_redis_try json_dumps now action details) w = Raise e3 /\
     api_logs (run (log_to_redis json_dumps now action details) w) = api_logs w).
Proof.
  split; [|split].
  - unfold log_to_redis, try_except, value.
    destruct (log_to_redis_try json_dumps now action details w) as [[[]|e] w1];
      reflexivity.
  - intros e He. unfold log_to_redis, try_except, value, run in *.
    destruct (log_to_redis_try json_dumps now action details w) as [[[]|e'] w1];
      cbn in *; [discriminate|].
    inversion He; subst. reflexivity.
  - intros e1 e2 e3 fs Hf.
    destruct w as [f tr logs keys us ms tp ss th]. cbn [faults] in Hf. subst f.
    repeat split; reflexivity.
Qed.

(** C2: in a world where Redis answers, every [log_to_redis] call leaves
    the list [api_logs] with the new entry at its head and cut to its first
    100 elements, so the list never holds more than 100 entries after a
    call and what is dropped is the oldest; after 101 calls or more the list
    is exactly the last 100 entries pushed, and [get_redis_logs] returns
    exactly these 100 entries. *)
Theorem api_logs_capped (calls : list (string * string * string)) (w : World) :
  quiet w ->
  (101 <= List.length calls)%nat ->
  (forall k, (1 <= k <= List.length calls)%nat ->
     let stored := api_logs (run (log_all json_dumps (firstn k calls)) w) in
     stored = firstn 100 (rev (map (pushed json_dumps) (firstn k calls)) ++ api_logs w)%list /\
     (List.length stored <= 100)%nat) /\
  let recent := skipn (List.length calls - 100) (map (pushed json_dumps) calls) in
  let w' := run (log_all json_dumps calls) w in
  List.length recent = 100%nat /\
  api_logs w' = rev recent /\
  value (get_redis_logs json_loads) w'
  = Ok (JArr (map (load_item json_loads) recent), 200%nat).
Proof.
  intros Hq Hn.
  assert (Hprefix : forall l, l <> [] ->
            exists w', log_all json_dumps l w = (Ok tt, w') /\ quiet w' /\
              api_logs w' = firstn 100 (rev (map (pushed json_dumps) l) ++ api_logs w)%list).
  { intros [|c l] Hl; [congruence|]. now apply log_all_quiet. }
  split.
  - intros k Hk.
    destruct (Hprefix (firstn k calls)) as (w1 & E & _ & L).
    { intros E. apply (f_equal (@List.length _)) in E.
      rewrite length_firstn in E. cbn in E. lia. }
    cbv zeta. unfold run. rewrite E. cbn [snd]. split; [exact L|].
    rewrite L. apply firstn_le_length.
  - destruct (Hprefix calls) as (w1 & E & Hq1 & L).
    { intros E. subst calls. cbn in Hn. lia. }
    cbv zeta. unfold run. rewrite E. cbn [snd].
    assert (Hrecent : api_logs w1
                      = rev (skipn (List.length calls - 100) (map (pushed json_dumps) calls))).
    { rewrite L, firstn_app, length_rev, length_map.
      replace (100 - List.length calls)%nat with 0%nat by lia.
      rewrite firstn_0, app_nil_r, firstn_rev, length_map. reflexivity. }
    split; [|split].
    + rewrite length_skipn, length_map. lia.
    + exact Hrecent.
    + rewrite (get_redis_logs_quiet w1 Hq1), Hrecent.
      rewrite length_rev, length_skipn, length_map.
      replace (List.length calls - (List.length calls - 100) - 100)%nat
        with 0%nat by lia.
      cbn [skipn]. rewrite map_rev, rev_involutive. reflexivity.
Qed.

End RecentActivity.

(** Witness of [api_logs_capped]: 101 calls from the empty world. *)
Lemma api_logs_capped_witness :
  quiet empty_world /\
  (101 <= List.length sample_calls)%nat /\
  api_logs (run (log_all sample_dumps sample_calls) empty_world)
  = rev (skipn (List.length sample_calls - 100)
               (map (pushed sample_dumps) sample_calls)).
Proof.
  assert (quiet empty_world) as Hq by constructor.
  assert (101 <= List.length sample_calls)%nat as Hn by (vm_compute; lia).
  split; [exact Hq|]. split; [exact Hn|].
  apply (api_logs_capped sample_dumps sample_loads sample_calls empty_world Hq Hn).
Defined.

(** C1: two entries recorded one after the other into the empty list, then
    read back: [get_redis_logs] lists the entry recorded first (the older
    one) first.  [lpush] already keeps the newest entry at the head, so the
    final [out.reverse()] turns the answer oldest first. *)
Theorem get_redis_logs_oldest_first
        (json_dumps : json -> string) (json_loads : string -> option json)
        (older newer : string * string * string) :
  let w := run (log_all json_dumps [older; newer]) empty_world in
  api_logs w = [pushed json_dumps newer; pushed json_dumps older] /\
  value (get_redis_logs json_loads) w
  = Ok (JArr [load_item json_loads (pushed json_dumps older);
              load_item json_loads (pushed json_dumps newer)], 200%nat).
Proof.
  destruct older as [[t1 a1] d1], newer as [[t2 a2] d2].
  split; reflexivity.
Qed.

(** X4: an item that [json.loads] rejects is kept, wrapped under [raw]; in a
    world where Redis answers, the answer of [get_redis_logs] has one
    element per stored item, in the reverse of the list's order. *)
Lemma get_redis_logs_keeps_malformed
      (json_loads : string -> option json) (w : World) (i : nat) (item : string) :
  quiet w ->
  (List.length (api_logs w) <= 100)%nat ->
  nth_error (api_logs w) i = Some item ->
  json_loads item = None ->
  exists out,
    value (get_redis_logs json_loads) w = Ok (JArr out, 200%nat) /\
    List.length out = List.length (api_logs w) /\
    nth_error out (List.length (api_logs w) - 1 - i) = Some (JObj [("raw", JStr item)]).
Proof.
  intros Hq Hlen Hi Hbad.
  eexists. split; [apply (get_redis_logs_quiet json_loads w Hq)|].
  replace (List.length (api_logs w) - 100)%nat with 0%nat by lia. cbn [skipn].
  assert (i < List.length (api_logs w))%nat as Hlt
      by (apply nth_error_Some; congruence).
  split.
  - now rewrite length_rev, length_map.
  - rewrite nth_error_rev, length_map.
    destruct (Nat.ltb_spec (List.length (api_logs w) - 1 - i) (List.length (api_logs w)));
      [|lia].
    replace (List.length (api_logs w) - S (List.length (api_logs w) - 1 - i))%nat
      with i by lia.
    rewrite nth_error_map, Hi. cbn. unfold load_item. now rewrite Hbad.
Qed.

(** ** The publisher *)

(** C4: [async_log_api_stats] returns normally and makes no external call
    of its own: it starts the thread and leaves the script of failures, the
    topic and everything else as they were, so its outcome is the same
    whether the broker can be reached or not.  The thread it started returns
    normally from every world: either the event reaches the topic, or the
    failure of the producer, of the send or of the flush is printed there
    and the topic is unchanged. *)
Theorem async_log_api_stats_detached
        (endpoint method status : string) (user_id : option string) (w : World) :
  let t := LogTask endpoint method status user_id in
  let w' := run (async_log_api_stats endpoint method status user_id) w in
  value (async_log_api_stats endpoint method status user_id) w = Ok tt /\
  trace w' = (trace w ++ [ThreadStart t])%list /\
  threads w' = (threads w ++ [t])%list /\
  faults w' = faults w /\
  topic w' = topic w /\
  forall (now : string) (w1 : World),
    let w2 := run (run_thread t now) w1 in
    value (run_thread t now) w1 = Ok tt /\
    threads w2 = threads w1 /\
    ((topic w2 = (topic w1 ++ [log_data endpoint method status user_id now])%list /\
      trace w2 = (trace w1 ++ [Call kafka_producer; Call producer_send;
                               Call producer_flush])%list)
     \/
     (topic w2 = topic w1 /\
      exists e evs,
        trace w2 = (trace w1 ++ evs ++ [Print ("Kafka logging error: " ++ str e)])%list)).
Proof.
  cbv zeta. do 5 (split; [reflexivity|]).
  intros now w1.
  destruct w1 as [f tr logs keys us ms tp ss th]. py_unfold.
  repeat next_call;
    (split; [reflexivity|]; split; [reflexivity|]);
    first
      [ left; split; [reflexivity | rewrite <- !app_assoc; reflexivity]
      | right; split; [reflexivity|]; eexists;
        first [ exists [Call kafka_producer]; rewrite <- !app_assoc; reflexivity
              | exists [Call kafka_producer; Call producer_send];
                rewrite <- !app_assoc; reflexivity
              | exists [Call kafka_producer; Call producer_send; Call producer_flush];
                rewrite <- !app_assoc; reflexivity ] ].
Qed.

Lemma run_thread_returns (t : task) (now : string) (w : World) :
  value (run_thread t now) w = Ok tt.
Proof.
  destruct t as [endpoint method status user_id].
  unfold run_thread, _log, try_except, value.
  match goal with |- fst (match ?b with _ => _ end) = _ => destruct b as [[[]|e] w1] end;
    reflexivity.
Qed.

Lemma run_thread_quiet (endpoint method status : string) (user_id : option string)
      (now : string) (w : World) :
  quiet w ->
  topic (run (run_thread (LogTask endpoint method status user_id) now) w)
  = (topic w ++ [log_data endpoint method status user_id now])%list.
Proof.
  destruct w as [f tr logs keys us ms tp ss th].
  unfold quiet; cbn [faults]. intros H. py_unfold.
  repeat quiet_call; reflexivity.
Qed.

(** ** The handlers *)

Section SaveToDb.

Variable json_dumps : json -> string.

(** What [save_to_db] reports, on each of its ways out. *)
Lemma save_to_db_report (r : request) (created_at now : string) (w : World) :
  exists body code evs,
    value (save_to_db json_dumps r created_at now) w = Ok (body, code) /\
    trace (run (save_to_db json_dumps r created_at now) w) = (trace w ++ evs)%list /\
    ((session w = None /\ code = 401%nat /\ evs = []) \/
     (session w <> None /\ code = 200%nat /\
      steps evs = [StepCounter; StepRecord; StepLogLine; StepPublish] /\
      api_increments "success" evs = [1%Z] /\ api_increments "error" evs = []) \/
     (session w <> None /\ code = 500%nat /\
      steps evs = [StepSpanError; StepCounter; StepLogLine; StepPublish; StepRecord] /\
      api_increments "success" evs = [] /\ api_increments "error" evs = [1%Z])).
Proof.
  destruct w as [f tr logs keys us ms tp ss th].
  unfold save_to_db. py_unfold.
  repeat sym_step;
    (do 3 eexists; split; [reflexivity|]; split; [new_events|]);
    first [ left; repeat split; reflexivity
          | right; left; repeat split; (discriminate || reflexivity)
          | right; right; repeat split; (discriminate || reflexivity) ].
Qed.

(** C5 (as the code has it): [save_to_db] never raises, whatever fails in
    MariaDB or Redis.  Not logged in, it answers 401 and reports nothing.
    Otherwise every reporting step runs, in this order: on success the
    counter, [log_to_redis], the log line, [async_log_api_stats]; on error
    the span tagging, the counter, the log line, [async_log_api_stats],
    [log_to_redis]. *)
Theorem save_to_db_steps (r : request) (created_at now : string) (w : World) :
  exists body code evs,
    value (save_to_db json_dumps r created_at now) w = Ok (body, code) /\
    trace (run (save_to_db json_dumps r created_at now) w) = (trace w ++ evs)%list /\
    ((session w = None /\ code = 401%nat /\ evs = []) \/
     (session w <> None /\ code = 200%nat /\
      steps evs = [StepCounter; StepRecord; StepLogLine; StepPublish]) \/
     (session w <> None /\ code = 500%nat /\
      steps evs = [StepSpanError; StepCounter; StepLogLine; StepPublish; StepRecord])).
Proof.
  destruct (save_to_db_report r created_at now w)
    as (body & code & evs & Hv & Ht & [H | [H | H]]).
  - exists body, code, evs. auto.
  - exists body, code, evs. intuition auto.
  - exists body, code, evs. intuition auto.
Qed.

(** X23: [save_to_db] adds to [api.calls] once per call, under the status
    of its answer. *)
Lemma save_to_db_counts_once (r : request) (created_at now : string) (w : World) :
  exists body code evs,
    value (save_to_db json_dumps r created_at now) w = Ok (body, code) /\
    trace (run (save_to_db json_dumps r created_at now) w) = (trace w ++ evs)%list /\
    ((code = 401%nat /\ evs = []) \/
     (code = 200%nat /\
      api_increments "success" evs = [1%Z] /\ api_increments "error" evs = []) \/
     (code = 500%nat /\
      api_increments "success" evs = [] /\ api_increments "error" evs = [1%Z])).
Proof.
  destruct (save_to_db_report r created_at now w)
    as (body & code & evs & Hv & Ht & [H | [H | H]]);
    exists body, code, evs; intuition auto.
Qed.

End SaveToDb.

(** C5, the order as specified does not hold: on a successful insert
    [log_to_redis] runs before the log line is written, and on a failed one
    the span is tagged before the counter moves and the thread is started
    before [log_to_redis] runs. *)
Lemma save_to_db_steps_not_as_specified :
  let w := set_session (Some "alice") empty_world in
  let down := set_faults [Some (Exn "InterfaceError" "2003: Can't connect to MySQL server")] w in
  let r := Some [("message", "hello")] in
  let saved := trace (run (save_to_db sample_dumps r "t0" "t1") w) in
  let failed := trace (run (save_to_db sample_dumps r "t0" "t1") down) in
  value (save_to_db sample_dumps r "t0" "t1") w
  = Ok (JObj [("status", JStr "success")], 200%nat) /\
  steps saved = [StepCounter; StepRecord; StepLogLine; StepPublish] /\
  steps saved <> report_steps false /\
  steps failed = [StepSpanError; StepCounter; StepLogLine; StepPublish; StepRecord] /\
  steps failed <> report_steps true.
Proof.
  cbv zeta. repeat split; try reflexivity; vm_compute; discriminate.
Qed.

(** [get_from_db] starts the publisher thread with the status of its
    answer and never touches [api.calls]. *)
Lemma get_from_db_report (w : World) :
  exists body code evs,
    value get_from_db w = Ok (body, code) /\
    trace (run get_from_db w) = (trace w ++ evs)%list /\
    api_increments "success" evs = [] /\
    api_increments "error" evs = [] /\
    ((session w = None /\ code = 401%nat /\ evs = []) \/
     (exists user_id, session w = Some user_id /\ code = 200%nat /\
        steps evs = [StepPublish] /\
        In (ThreadStart (LogTask "/db/messages" "GET" "success" (Some user_id))) evs) \/
     (exists user_id, session w = Some user_id /\ code = 500%nat /\
        steps evs = [StepPublish] /\
        In (ThreadStart (LogTask "/db/messages" "GET" "error" (Some user_id))) evs)).
Proof.
  destruct w as [f tr logs keys us ms tp ss th].
  unfold get_from_db. py_unfold.
  repeat sym_step;
    (do 3 eexists; split; [reflexivity|]; split; [new_events|];
     split; [reflexivity|]; split; [reflexivity|]);
    first [ solve [left; repeat split; reflexivity]
          | solve [right; left; eexists; repeat split; cbn; auto 10]
          | solve [right; right; eexists; repeat split; cbn; auto 10] ].
Qed.

(** C6: a logged-in [GET /db/messages] while MariaDB is down is answered
    500 and publishes an event with status [error], and [api.calls] is not
    touched. *)
Theorem get_from_db_error_not_counted :
  let e := Exn "InterfaceError" "2003: Can't connect to MySQL server" in
  let w := set_faults [Some e] (set_session (Some "alice") empty_world) in
  value get_from_db w = Ok (error_body (str e), 500%nat) /\
  trace (run get_from_db w)
  = [Call mysql_connect;
     ThreadStart (LogTask "/db/messages" "GET" "error" (Some "alice"))] /\
  api_increments "error" (trace (run get_from_db w)) = [] /\
  api_increments "success" (trace (run get_from_db w)) = [].
Proof.
  cbv zeta. repeat split; reflexivity.
Qed.

Section Login.

Variable json_dumps : json -> string.
Variable check_password_hash : string -> string -> bool.

Ltac password_step :=
  match goal with
  | |- context [if check_password_hash ?a ?b then _ else _] =>
      destruct (check_password_hash a b) eqn:?; py_unfold
  end.

(** What [login] reports, on each of its ways out: one increment of
    [api.calls] under the status of the answer, no call of
    [log_to_redis]'s list and no publisher thread. *)
Lemma login_report (r : request) (now : string) (w : World) :
  exists body code evs,
    value (login json_dumps check_password_hash r now) w = Ok (body, code) /\
    trace (run (login json_dumps check_password_hash r now) w) = (trace w ++ evs)%list /\
    threads (run (login json_dumps check_password_hash r now) w) = threads w /\
    topic (run (login json_dumps check_password_hash r now) w) = topic w /\
    Forall (fun ev => step_of ev <> Some StepPublish) evs /\
    ((code = 200%nat /\
      api_increments "success" evs = [1%Z] /\ api_increments "error" evs = []) \/
     ((code = 400%nat \/ code = 401%nat \/ code = 500%nat) /\
      api_increments "success" evs = [] /\ api_increments "error" evs = [1%Z])).
Proof.
  destruct w as [f tr logs keys us ms tp ss th].
  unfold login. py_unfold.
  repeat first [sym_step | password_step];
    (do 3 eexists; split; [reflexivity|]; split; [new_events|];
     split; [reflexivity|]; split; [reflexivity|];
     split; [repeat constructor; cbn; congruence|]);
    first [ left; repeat split; reflexivity
          | right; split; [auto|]; split; reflexivity ].
Qed.

(** C9 (as the code has it): [login] never raises; a login that fails, for
    whatever reason, adds to [api.calls] exactly once under status [error]
    and starts no publisher thread, so nothing is published for it.
    [async_log_api_stats] itself accepts [None] as user: it returns
    normally, its thread returns normally, and in a world where the broker
    answers the event that reaches the topic has [user_id] null. *)
Theorem login_counts_and_publishes_nothing (r : request) (now : string) (w : World) :
  (exists body code evs,
     value (login json_dumps check_password_hash r now) w = Ok (body, code) /\
     trace (run (login json_dumps check_password_hash r now) w) = (trace w ++ evs)%list /\
     threads (run (login json_dumps check_password_hash r now) w) = threads w /\
     topic (run (login json_dumps check_password_hash r now) w) = topic w /\
     Forall (fun ev => step_of ev <> Some StepPublish) evs /\
     (code <> 200%nat ->
      api_increments "error" evs = [1%Z] /\ api_increments "success" evs = [])) /\
  (forall endpoint method status now' w1,
     value (async_log_api_stats endpoint method status None) w1 = Ok tt /\
     value (run_thread (LogTask endpoint method status None) now') w1 = Ok tt /\
     (quiet w1 ->
      topic (run (run_thread (LogTask endpoint method status None) now') w1)
      = (topic w1 ++
         [JObj [("timestamp", JStr now');
                ("endpoint", JStr endpoint);
                ("method", JStr method);
                ("status", JStr status);
                ("user_id", JNull);
                ("message", JStr ("None" ++ "가 " ++ method ++ " "
                                  ++ endpoint ++ " 호출 (" ++ status ++ ")"))]])%list)).
Proof.
  split.
  - destruct (login_report r now w)
      as (body & code & evs & Hv & Ht & Hth & Htp & Hp & Hc).
    exists body, code, evs. repeat (split; [assumption|]).
    intros Hcode. destruct Hc as [(? & _) | (_ & ? & ?)]; [contradiction | auto].
  - intros endpoint method status now' w1. split; [reflexivity|].
    split; [apply run_thread_returns|].
    intros Hq. now rewrite run_thread_quiet.
Qed.

End Login.

(** C9, a failed login is not published: a login with a wrong password is
    answered 401 and counted once as an error, and no thread is started and
    nothing reaches the topic. *)
Lemma login_failure_not_published :
  let w := set_users [("alice", sample_hash "secret")] empty_world in
  let r := Some [("username", "alice"); ("password", "wrong")] in
  let w' := run (login sample_dumps sample_check r "t0") w in
  value (login sample_dumps sample_check r "t0") w
  = Ok (error_body "잘못된 인증 정보", 401%nat) /\
  api_increments "error" (trace w') = [1%Z] /\
  threads w' = [] /\
  topic w' = [] /\
  ~ (exists t, In (ThreadStart t) (trace w')).
Proof.
  cbv zeta. repeat split; try reflexivity.
  intros [t H]. vm_compute in H. intuition discriminate.
Qed.

Lemma find_existing (username : string) (table : list (string * string)) :
  In username (map fst table) ->
  exists row, find (fun row => String.eqb (fst row) username) table = Some row.
Proof.
  induction table as [|row table IH]; cbn; [tauto|].
  intros [E | Hin].
  - exists row. now rewrite E, String.eqb_refl.
  - destruct (String.eqb (fst row) username); eauto.
Qed.

Section Register.

Variable generate_password_hash : string -> string.

(** C10: a registration whose username is already in the table [users] is
    answered with an error and leaves the table as it was: the only
    statement executed is the [SELECT], and nothing is committed.  The
    answer is 400 (duplicate, or a missing field) unless MariaDB itself
    failed, which gives 500. *)
Theorem register_existing_username
        (data : list (string * string)) (username : string) (w : World) :
  dict_get data "username" = Some username ->
  In username (map fst (users w)) ->
  exists message code evs,
    value (register generate_password_hash (Some data)) w
    = Ok (error_body message, code) /\
    trace (run (register generate_password_hash (Some data)) w) = (trace w ++ evs)%list /\
    users (run (register generate_password_hash (Some data)) w) = users w /\
    ~ In (Call db_commit) evs /\
    (List.length (filter is_execute evs) <= 1)%nat /\
    ((code = 400%nat /\
      (message = "이미 존재하는 사용자명입니다" \/
       (message = "사용자명과 비밀번호는 필수입니다" /\
        (not_ (Some username) || not_ (dict_get data "password"))%bool = true)))
     \/
     (code = 500%nat /\ Exists (fun f => f <> None) (faults w))).
Proof.
  intros Hu Hin.
  destruct w as [f tr logs keys us ms tp ss th]. cbn [users] in Hin.
  destruct (find_existing username us Hin) as [row Hrow].
  cbv beta delta [fst] in Hrow.
  unfold register. py_unfold. rewrite Hu.
  repeat sym_step; try congruence;
    (do 3 eexists; split; [reflexivity|]; split; [new_events|];
     split; [reflexivity|];
     split; [cbn; intuition discriminate|];
     split; [cbn; lia|]);
    first [ solve [left; split; [reflexivity|]; left; reflexivity]
          | solve [left; split; [reflexivity|]; right; split; reflexivity]
          | solve [right; split; [reflexivity|]; cbn [faults]; some_fault] ].
Qed.

End Register.

(** Witness of [register_existing_username]: alice registers twice. *)
Lemma register_existing_username_witness :
  let data := [("username", "alice"); ("password", "secret")] in
  let w := set_users [("alice", sample_hash "first")] empty_world in
  dict_get data "username" = Some "alice" /\
  In "alice" (map fst (users w)) /\
  value (register sample_hash (Some data)) w
  = Ok (error_body "이미 존재하는 사용자명입니다", 400%nat) /\
  users (run (register sample_hash (Some data)) w) = users w.
Proof.
  cbv zeta.
  assert (dict_get [("username", "alice"); ("password", "secret")] "username"
          = Some "alice") as Hu by reflexivity.
  assert (In "alice" (map fst (users (set_users [("alice", sample_hash "first")]
                                                empty_world)))) as Hin
      by (left; reflexivity).
  split; [exact Hu|]. split; [exact Hin|].
  destruct (register_existing_username sample_hash _ _ _ Hu Hin)
    as (message & code & evs & Hv & _ & Husers & _).
  split; [reflexivity | exact Husers].
Defined.

(** ** Reading the topic *)

Section Descending.

Context {A : Type} (key : A -> string).

Lemma insert_reverse_perm (x : A) (l : list A) :
  Permutation (x :: l) (insert_reverse key x l).
Proof.
  induction l as [|y l IH]; cbn.
  - reflexivity.
  - destruct (String.leb (key y) (key x)).
    + reflexivity.
    + rewrite perm_swap. now apply perm_skip.
Qed.

Lemma sort_reverse_perm (l : list A) : Permutation l (sort_reverse key l).
Proof.
  induction l as [|x l IH]; cbn.
  - reflexivity.
  - rewrite <- insert_reverse_perm. now apply perm_skip.
Qed.

Lemma insert_reverse_sorted (x : A) (l : list A) :
  Sorted (above key) l -> Sorted (above key) (insert_reverse key x l).
Proof.
  induction 1 as [|y l Hs IH Hhd]; cbn.
  - repeat constructor.
  - destruct (String.leb (key y) (key x)) eqn:E.
    + repeat constructor; assumption.
    + constructor; [exact IH|].
      assert (above key y x) as Hyx.
      { unfold above. destruct (String.leb_total (key x) (key y)); congruence. }
      destruct Hhd as [|z l Hz]; cbn.
      * now constructor.
      * destruct (String.leb (key z) (key x)); now constructor.
Qed.

Lemma sort_reverse_sorted (l : list A) : Sorted (above key) (sort_reverse key l).
Proof.
  induction l as [|x l IH]; cbn.
  - constructor.
  - now apply insert_reverse_sorted.
Qed.

End Descending.

Lemma consume_returns (incoming : list AuditEvent) :
  forall (logs : list AuditEvent) (w : World) (l : list AuditEvent) (w' : World),
    (List.length logs < 100)%nat ->
    consume incoming logs w = (Ok l, w') ->
    l = (logs ++ firstn (100 - List.length logs) incoming)%list /\
    session w' = session w /\
    exists evs,
      trace w' = (trace w ++ evs)%list /\
      List.length (filter is_next evs)
      = reads (100 - List.length logs) (List.length incoming).
Proof.
  induction incoming as [|message rest IH]; intros logs w l w' Hroom E.
  - cbn [consume] in E. unfold bind in E.
    destruct (call_outcome consumer_next w) as [fs [[Ec _] | [e [Ec _]]]];
      rewrite Ec in E; [|discriminate].
    unfold ret in E. injection E as El Ew. subst l w'. rewrite firstn_nil, app_nil_r.
    split; [reflexivity|]. split; [reflexivity|].
    exists [Call consumer_next]. split; [reflexivity|].
    unfold reads. cbn [List.length].
    destruct (Nat.leb_spec (100 - List.length logs) 0); [lia | reflexivity].
  - cbn [consume] in E. unfold bind in E.
    destruct (call_outcome consumer_next w) as [fs [[Ec _] | [e [Ec _]]]];
      rewrite Ec in E; [|discriminate].
    destruct message as [ts ep me st us ms]. cbn [ev_timestamp ev_endpoint ev_method
      ev_status ev_user_id ev_message] in E.
    set (m := mkAuditEvent ts ep me st us ms) in *.
    rewrite length_app in E. cbn [List.length] in E.
    destruct (Nat.leb_spec 100 (List.length logs + 1)) as [Hfull | Hmore].
    + unfold ret in E. injection E as El Ew. subst l w'.
      replace (100 - List.length logs)%nat with 1%nat by lia.
      split; [reflexivity|]. split; [reflexivity|].
      exists [Call consumer_next]. split; [reflexivity|].
      unfold reads. reflexivity.
    + apply IH in E; [|rewrite length_app; cbn; lia].
      destruct E as (El & Es & evs & Et & Hn).
      rewrite length_app in El, Hn. cbn [List.length] in El, Hn.
      split.
      { rewrite El, <- app_assoc.
        replace (100 - List.length logs)%nat
          with (S (100 - (List.length logs + 1)))%nat by lia.
        reflexivity. }
      split; [exact Es|].
      exists (Call consumer_next :: evs). split.
      { rewrite Et. cbn [trace set_faults emit]. now rewrite <- app_assoc. }
      cbn [filter is_next List.length]. rewrite Hn. unfold reads.
      destruct (Nat.leb_spec (100 - (List.length logs + 1)) (List.length rest)),
               (Nat.leb_spec (100 - List.length logs) (S (List.length rest))); lia.
Qed.

Lemma consume_quiet (incoming : list AuditEvent) :
  forall (logs : list AuditEvent) (w : World),
    quiet w ->
    exists l w', consume incoming logs w = (Ok l, w') /\ quiet w'.
Proof.
  induction incoming as [|message rest IH]; intros logs w Hq.
  - cbn [consume]. unfold bind.
    destruct (call_outcome consumer_next w) as [fs [[Ec Hfs] | [e [_ Hn]]]];
      [|contradiction].
    rewrite Ec. do 2 eexists. split; [reflexivity|].
    destruct w; apply Hfs, Hq.
  - cbn [consume]. unfold bind.
    destruct (call_outcome consumer_next w) as [fs [[Ec Hfs] | [e [_ Hn]]]];
      [|contradiction].
    rewrite Ec.
    assert (quiet (set_faults fs (emit (Call consumer_next) w))) as Hq1
        by (destruct w; apply Hfs, Hq).
    match goal with |- context [if ?b then _ else _] => destruct b end.
    + do 2 eexists. split; [reflexivity | exact Hq1].
    + now apply IH.
Qed.

Lemma string_compare_trans (a : string) :
  forall b c : string,
    String.compare a b <> Gt -> String.compare b c <> Gt -> String.compare a c <> Gt.
Proof.
  induction a as [|x a IH]; intros [|y b] [|z c]; cbn; try congruence.
  unfold Ascii.compare.
  destruct (N.compare_spec (N_of_ascii x) (N_of_ascii y)),
           (N.compare_spec (N_of_ascii y) (N_of_ascii z)),
           (N.compare_spec (N_of_ascii x) (N_of_ascii z));
    try congruence; try lia; eauto.
Qed.

Lemma string_leb_trans (a b c : string) :
  String.leb a b = true -> String.leb b c = true -> String.leb a c = true.
Proof.
  unfold String.leb. intros Hab Hbc.
  assert (String.compare a c <> Gt) as H.
  { apply (string_compare_trans a b c).
    - destruct (String.compare a b); congruence.
    - destruct (String.compare b c); congruence. }
  destruct (String.compare a c); congruence.
Qed.

Lemma sort_reverse_descending (l : list AuditEvent) :
  StronglySorted newest_first (sort_reverse ev_timestamp l).
Proof.
  apply Sorted_StronglySorted.
  - intros a b c Hab Hbc. unfold newest_first, above in *.
    eapply string_leb_trans; eassumption.
  - apply sort_reverse_sorted.
Qed.

(** C8: [get_kafka_logs] always answers.  When it answers 200 the body holds
    the first 100 records delivered (all of them when fewer came before the
    consumer timed out), so at most 100, sorted by timestamp, largest first;
    the iterator was asked once per record taken, and once more, to wait
    out the timeout, only when fewer than 100 came.  With a session and no
    failure it answers 200. *)
Theorem get_kafka_logs_bounded_sorted (incoming : list AuditEvent) (w : World) :
  exists body code,
    value (get_kafka_logs incoming) w = Ok (body, code) /\
    (code = 200%nat ->
     exists logs evs,
       body = JArr (map audit_json logs) /\
       logs = sort_reverse ev_timestamp (firstn 100 incoming) /\
       (List.length logs <= 100)%nat /\
       StronglySorted newest_first logs /\
       Permutation (firstn 100 incoming) logs /\
       trace (run (get_kafka_logs incoming) w) = (trace w ++ evs)%list /\
       List.length (filter is_next evs)
       = (if (100 <=? List.length incoming)%nat then 100 else S (List.length incoming))%nat) /\
    (quiet w -> session w <> None -> code = 200%nat).
Proof.
  unfold value, run.
  destruct (get_kafka_logs incoming w) as [res wf] eqn:Eg. cbn [fst snd].
  unfold get_kafka_logs, login_required, bind, gets, try_except, try_finally in Eg.
  destruct (session w) as [user_id|] eqn:Es.
  2:{ inversion Eg; subst. do 2 eexists. split; [reflexivity|].
      split; [discriminate | congruence]. }
  destruct (call_outcome kafka_consumer w) as [fs [[Ec Hfs] | [e [Ec Hn]]]];
    rewrite Ec in Eg.
  2:{ inversion Eg; subst. do 2 eexists. split; [reflexivity|].
      split; [discriminate | tauto]. }
  set (w1 := set_faults fs (emit (Call kafka_consumer) w)) in *.
  assert (quiet w -> quiet w1) as Hq1 by (intros Hq; destruct w; apply Hfs, Hq).
  destruct (consume incoming [] w1) as [[l|e] w2] eqn:E.
  - destruct (call_outcome consumer_close w2) as [fs2 [[Ec2 _] | [e [Ec2 Hn2]]]];
      rewrite Ec2 in Eg; inversion Eg; subst res wf; clear Eg.
    + do 2 eexists. split; [reflexivity|]. split; [|reflexivity].
      intros _. apply consume_returns in E; [|cbn; lia].
      destruct E as (El & _ & evs & Et & Hreads). cbn in El. subst l.
      exists (sort_reverse ev_timestamp (firstn 100 incoming)),
        (Call kafka_consumer :: evs ++ [Call consumer_close])%list.
      split; [reflexivity|]. split; [reflexivity|].
      pose proof (sort_reverse_perm ev_timestamp (firstn 100 incoming)) as Hp.
      split; [rewrite <- (Permutation_length Hp); apply firstn_le_length|].
      split; [apply sort_reverse_descending|]. split; [exact Hp|]. split.
      * cbn [trace set_faults emit]. rewrite Et. subst w1.
        cbn [trace set_faults emit]. rewrite <- !app_assoc. reflexivity.
      * cbn [filter is_next]. rewrite filter_app, length_app.
        cbn [filter is_next List.length]. rewrite Hreads, Nat.add_0_r.
        unfold reads. change (100 - 0)%nat with 100%nat. reflexivity.
    + do 2 eexists. split; [reflexivity|]. split; [discriminate|].
      intros Hq _. exfalso.
      destruct (consume_quiet incoming [] w1 (Hq1 Hq)) as (l' & w2' & E' & Hq2).
      rewrite E in E'. inversion E'; subst. contradiction.
  - destruct (call_outcome consumer_close w2) as [fs2 [[Ec2 _] | [e' [Ec2 _]]]];
      rewrite Ec2 in Eg; inversion Eg; subst res wf; clear Eg;
      (do 2 eexists; split; [reflexivity|]; split; [discriminate|];
       intros Hq _; exfalso;
       destruct (consume_quiet incoming [] w1 (Hq1 Hq)) as (l' & w2' & E' & Hq2);
       rewrite E in E'; discriminate).
Qed.

(** * The remaining handlers *)

(** DEL on a plain key. *)
Definition delete (key : string) : M unit :=
  call redis_delete ;;
  modify (fun w =>
            set_redis_keys
              (filter (fun kv => negb (String.eqb (fst kv) key)) (redis_keys w)) w).

(** [POST /logout] *)
Definition logout : M response :=
  try_except
    (s <- gets session ;;
     match s with
     | Some username =>
         redis_client <- get_redis_connection ;;
         on_client redis_client "delete" (delete ("session:" ++ username)) ;;
         modify (set_session None)
     | None => ret tt
     end ;;
     ret (jsonify (JObj [("status", JStr "success");
                         ("message", JStr "로그아웃 성공")])))
    (fun e => ret (error_body (str e), 500%nat)).

(** [request.args.get(key, default)] *)
Definition args_get (args : list (string * string)) (key default : string) : string :=
  match dict_get args key with
  | Some v => v
  | None => default
  end.

Section Search.

(** [sql_like pattern text]: whether MariaDB finds [text LIKE pattern]. *)
Variable sql_like : string -> string -> bool.

(** [GET /db/messages/search] *)
Definition search_messages (args : list (string * string)) : M response :=
  login_required
    (try_except
       (let query := args_get args "q" "" in
        user_id <- session_user_id ;;
        db <- get_db_connection ;;
        call cursor_execute ;;
        call cursor_fetch ;;
        results <- gets (fun w =>
                           sort_reverse snd
                             (filter (fun row => sql_like ("%" ++ query ++ "%") (fst row))
                                     (messages w))) ;;
        call cursor_close ;;
        call db_close ;;
        async_log_api_stats "/db/messages/search" "GET" "success" (Some user_id) ;;
        ret (jsonify (JArr (map message_row results))))
       (fun e =>
          s <- gets session ;;
          match s with
          | Some user_id =>
              async_log_api_stats "/db/messages/search" "GET" "error" (Some user_id)
          | None => ret tt
          end ;;
          ret (error_body (str e), 500%nat))).

End Search.

(** * More properties *)

(** [py_unfold], reaching into the handlers above as well. *)
Ltac py_more :=
  cbv beta iota zeta delta [delete logout search_messages args_get];
  py_unfold.

Ltac more_step := sym_step; py_more.

(** ** The recent-activity list when Redis fails *)

Section RecentActivityFaults.

Variable json_dumps : json -> string.
Variable json_loads : string -> option json.

(** X1: [log_to_redis], whatever fails.  The list [api_logs] is left as it
    was, or with the new entry at its head (the push went through and the
    trim failed), or with the new entry at its head and cut to 100.  It is
    cut to 100 whenever the connection was closed, [close] being reached
    only after the trim; it changes only when LPUSH was sent; and nothing
    else in the world changes. *)
Theorem log_to_redis_grows_by_one (now action details : string) (w : World) :
  let entry := json_dumps (log_entry now action details) in
  let w' := run (log_to_redis json_dumps now action details) w in
  exists evs,
    trace w' = (trace w ++ evs)%list /\
    (api_logs w' = api_logs w \/
     api_logs w' = entry :: api_logs w \/
     api_logs w' = firstn 100 (entry :: api_logs w)) /\
    (In (Call redis_close) evs -> api_logs w' = firstn 100 (entry :: api_logs w)) /\
    (api_logs w' = api_logs w \/ In (Call redis_lpush) evs) /\
    users w' = users w /\ messages w' = messages w /\ topic w' = topic w /\
    session w' = session w /\ threads w' = threads w.
Proof.
  destruct w as [f tr logs keys us ms tp ss th]. cbv zeta. py_unfold.
  repeat next_call; rewrite ?redis_range_head;
    (eexists; split; [new_events|]);
    (split; [first [left; reflexivity | right; left; reflexivity | right; right; reflexivity]|]);
    (split; [first [intros _; reflexivity | intros H; cbn in H; exfalso; intuition discriminate]|]);
    (split; [first [left; reflexivity | right; cbn; auto 10]|]);
    repeat split.
Qed.

(** X2: an entry recorded while Redis answers is the last item of what
    [get_redis_logs] returns next, after the 99 newest entries that were
    there before, these oldest first. *)
Theorem log_then_read (now action details : string) (w : World) :
  quiet w ->
  value (get_redis_logs json_loads)
        (run (log_to_redis json_dumps now action details) w)
  = Ok (JArr (rev (map (load_item json_loads) (firstn 99 (api_logs w)))
              ++ [load_item json_loads (json_dumps (log_entry now action details))])%list,
        200%nat).
Proof.
  intros Hq.
  destruct (log_to_redis_quiet json_dumps now action details w Hq)
    as (w1 & E & Hq1 & L).
  unfold run. rewrite E. cbn [snd].
  rewrite (get_redis_logs_quiet json_loads w1 Hq1), L.
  change (firstn 100 (pushed json_dumps (now, action, details) :: api_logs w))
    with (json_dumps (log_entry now action details) :: firstn 99 (api_logs w)).
  cbn [List.length].
  replace (S (List.length (firstn 99 (api_logs w))) - 100)%nat with 0%nat
    by (pose proof (firstn_le_length 99 (api_logs w)); lia).
  reflexivity.
Qed.

Lemma load_items_length (raw : list string) (l : list json) :
  List.length (load_items json_loads raw l) = (List.length l + List.length raw)%nat.
Proof.
  rewrite load_items_map, length_app, length_map. reflexivity.
Qed.

(** X3: [get_redis_logs] always answers and never writes to the list.  It
    answers 200 with one item per stored entry, up to 100, or 500 when a
    Redis call failed, the error then being logged and set on the span.  The
    span is started first and ended last. *)
Theorem get_redis_logs_answers (w : World) :
  let w' := run (get_redis_logs json_loads) w in
  exists body code evs,
    value (get_redis_logs json_loads) w = Ok (body, code) /\
    trace w' = (trace w ++ evs)%list /\
    hd_error evs = Some (SpanStart "get_redis_logs") /\
    last evs (SpanStart "") = SpanEnd "get_redis_logs" /\
    api_logs w' = api_logs w /\
    ((code = 200%nat /\
      exists out, body = JArr out /\
                  List.length out = Nat.min 100 (List.length (api_logs w)))
     \/
     (code = 500%nat /\
      Exists (fun f => f <> None) (faults w) /\
      In (Log ERROR "redis logs error") evs /\
      In (SpanSetAttribute "error" (JBool true)) evs)).
Proof.
  destruct w as [f tr logs keys us ms tp ss th]. cbv zeta.
  unfold get_redis_logs. py_unfold.
  repeat next_call;
    (do 3 eexists; split; [reflexivity|]; split; [new_events|];
     split; [reflexivity|]; split; [reflexivity|]; split; [reflexivity|]);
    first
      [ solve [ left; split; [reflexivity|]; eexists; split; [reflexivity|];
                rewrite length_rev, load_items_length, redis_range_tail, length_skipn;
                cbn [List.length]; lia ]
      | solve [ right; split; [reflexivity|]; split; [cbn [faults]; some_fault|];
                split; cbn; auto 20 ] ].
Qed.

End RecentActivityFaults.

(** Witness of [log_then_read]. *)
Lemma log_then_read_witness :
  quiet empty_world /\
  value (get_redis_logs sample_loads)
        (run (log_to_redis sample_dumps "t0" "db_insert" "Message saved: hello...")
             empty_world)
  = Ok (JArr [JObj [("raw",
                     JStr "{timestamp: t0, action: db_insert, details: Message saved: hello...}")]],
        200%nat).
Proof.
  assert (quiet empty_world) as Hq by constructor.
  split; [exact Hq|].
  exact (log_then_read sample_dumps sample_loads "t0" "db_insert"
                       "Message saved: hello..." empty_world Hq).
Defined.

(** Witness of [get_redis_logs_keeps_malformed]. *)
Lemma get_redis_logs_keeps_malformed_witness :
  let w := set_api_logs ["{broken"] empty_world in
  quiet w /\
  (List.length (api_logs w) <= 100)%nat /\
  nth_error (api_logs w) 0 = Some "{broken" /\
  sample_loads "{broken" = None /\
  exists out,
    value (get_redis_logs sample_loads) w = Ok (JArr out, 200%nat) /\
    List.length out = List.length (api_logs w) /\
    nth_error out (List.length (api_logs w) - 1 - 0) = Some (JObj [("raw", JStr "{broken")]).
Proof.
  cbv zeta.
  assert (quiet (set_api_logs ["{broken"] empty_world)) as Hq by constructor.
  assert (List.length (api_logs (set_api_logs ["{broken"] empty_world)) <= 100)%nat
    as Hl by (cbn; lia).
  assert (nth_error (api_logs (set_api_logs ["{broken"] empty_world)) 0
          = Some "{broken") as Hn by reflexivity.
  assert (sample_loads "{broken" = None) as Hb by reflexivity.
  split; [exact Hq|]. split; [exact Hl|]. split; [exact Hn|]. split; [exact Hb|].
  exact (get_redis_logs_keeps_malformed sample_loads _ 0%nat "{broken" Hq Hl Hn Hb).
Defined.

(** ** Accounts and sessions *)

Lemma find_user_in (username : string) (table : list (string * string))
      (row : string * string) :
  find (fun row => String.eqb (fst row) username) table = Some row ->
  In row table /\ fst row = username.
Proof.
  intros H. apply find_some in H. now rewrite String.eqb_eq in H.
Qed.

Lemma find_user_none (username : string) (table : list (string * string)) :
  find (fun row => String.eqb (fst row) username) table = None ->
  ~ In username (map fst table).
Proof.
  intros H Hin. destruct (find_existing username table Hin) as [row Hrow].
  congruence.
Qed.

Lemma find_user_new (username password : string) (table : list (string * string)) :
  ~ In username (map fst table) ->
  find (fun row => String.eqb (fst row) username) (table ++ [(username, password)])
  = Some (username, password).
Proof.
  induction table as [|row table IH]; cbn; intros Hn.
  - now rewrite String.eqb_refl.
  - destruct (String.eqb (fst row) username) eqn:E.
    + apply String.eqb_eq in E. tauto.
    + apply IH. tauto.
Qed.

(** The key of a user's session in Redis. *)
Definition session_key (username : string) : string := "session:" ++ username.

(** The list of keys without [key]. *)
Definition without (key : string) (keys : list (string * (string * option Z)))
  : list (string * (string * option Z)) :=
  filter (fun kv => negb (String.eqb (fst kv) key)) keys.

Lemma expire_without (key : string) (seconds : Z)
      (keys : list (string * (string * option Z))) :
  map (fun kv => if String.eqb (fst kv) key
                 then (fst kv, (fst (snd kv), Some seconds)) else kv)
      (without key keys)
  = without key keys.
Proof.
  unfold without. induction keys as [|kv keys IH]; cbn; [reflexivity|].
  destruct (String.eqb (fst kv) key) eqn:E; cbn; [exact IH|].
  rewrite E. now f_equal.
Qed.

Lemma without_without (key : string) (keys : list (string * (string * option Z))) :
  without key (without key keys) = without key keys.
Proof.
  unfold without. induction keys as [|kv keys IH]; cbn; [reflexivity|].
  destruct (String.eqb (fst kv) key) eqn:E; cbn; [exact IH|].
  rewrite E. cbn. now f_equal.
Qed.

Ltac no_fault H :=
  exfalso;
  first [ discriminate (H 0%nat ltac:(lia)) | discriminate (H 1%nat ltac:(lia))
        | discriminate (H 2%nat ltac:(lia)) | discriminate (H 3%nat ltac:(lia))
        | discriminate (H 4%nat ltac:(lia)) ].

Section LoginMore.

Variable json_dumps : json -> string.
Variable check_password_hash : string -> string -> bool.

Ltac hash_step :=
  match goal with
  | |- context [if check_password_hash ?a ?b then _ else _] =>
      destruct (check_password_hash a b) eqn:?; py_unfold
  end.

(** What [login] leaves behind, on each of its ways out. *)
Lemma login_state (r : request) (now : string) (w : World) :
  let w' := run (login json_dumps check_password_hash r now) w in
  exists body code,
    value (login json_dumps check_password_hash r now) w = Ok (body, code) /\
    users w' = users w /\ messages w' = messages w /\
    api_logs w' = api_logs w /\ topic w' = topic w /\
    ((code = 200%nat /\
      exists data username password row,
        r = Some data /\
        dict_get data "username" = Some username /\
        dict_get data "password" = Some password /\
        find (fun row => String.eqb (fst row) username) (users w) = Some row /\
        check_password_hash (snd row) password = true /\
        session w' = Some username)
     \/
     (code <> 200%nat /\ session w' = session w /\ redis_keys w' = redis_keys w)).
Proof.
  destruct w as [f tr logs keys us ms tp ss th]. cbv zeta.
  unfold login. py_unfold.
  repeat first [sym_step | hash_step];
    (do 2 eexists; split; [reflexivity|]; do 4 (split; [reflexivity|]));
    first
      [ solve [ left; split; [reflexivity|]; do 4 eexists;
                split; [reflexivity|]; repeat split; eassumption || reflexivity ]
      | solve [ right; split; [discriminate|]; split; reflexivity ] ].
Qed.

End LoginMore.

Section Accounts.

Variable json_dumps : json -> string.
Variable generate_password_hash : string -> string.
Variable check_password_hash : string -> string -> bool.

(** X5: [login] answers 200 only to a request whose username is in [users]
    with a stored hash that [check_password_hash] accepts for the password
    sent, and the session then holds that username.  On any other answer
    the session and the Redis keys are as before.  [login] never writes to
    the tables. *)
Theorem login_sound (r : request) (now : string) (w : World) :
  let w' := run (login json_dumps check_password_hash r now) w in
  exists body code,
    value (login json_dumps check_password_hash r now) w = Ok (body, code) /\
    users w' = users w /\ messages w' = messages w /\
    (code = 200%nat ->
     exists data username password stored,
       r = Some data /\
       dict_get data "username" = Some username /\
       dict_get data "password" = Some password /\
       In (username, stored) (users w) /\
       check_password_hash stored password = true /\
       session w' = Some username) /\
    (code <> 200%nat -> session w' = session w /\ redis_keys w' = redis_keys w).
Proof.
  destruct (login_state json_dumps check_password_hash r now w)
    as (body & code & Hv & Hu & Hm & _ & _ & H).
  exists body, code. do 3 (split; [assumption|]). split.
  - intros Hc. destruct H as [(_ & data & username & password & row & H) | (Hn & _)];
      [|contradiction].
    destruct H as (Hr & Hdu & Hdp & Hf & Hchk & Hs).
    destruct (find_user_in _ _ _ Hf) as [Hin Hfst].
    exists data, username, password, (snd row).
    repeat split; try assumption.
    rewrite <- Hfst. now destruct row.
  - intros Hc. destruct H as [(Hok & _) | (_ & H)]; [contradiction | exact H].
Qed.

Ltac hash_step' :=
  match goal with
  | |- context [if check_password_hash ?a ?b then _ else _] =>
      destruct (check_password_hash a b) eqn:?; py_unfold
  end.

(** X6: [login] does not depend on Redis.  When the five MariaDB calls
    succeed and the credentials match, the answer is 200, the session is
    set and [api.calls] moves once under [success], whatever happens to the
    Redis calls: either the session key is stored with a TTL of 3600, or
    the Redis failure is logged as a warning. *)
Theorem login_survives_redis_outage
        (data : list (string * string)) (username password : string)
        (row : string * string) (now : string) (w : World) :
  dict_get data "username" = Some username ->
  dict_get data "password" = Some password ->
  username <> "" -> password <> "" ->
  find (fun row => String.eqb (fst row) username) (users w) = Some row ->
  check_password_hash (snd row) password = true ->
  (forall k, (k < 5)%nat -> fault_at w k = None) ->
  let w' := run (login json_dumps check_password_hash (Some data) now) w in
  exists body evs,
    value (login json_dumps check_password_hash (Some data) now) w = Ok (body, 200%nat) /\
    session w' = Some username /\
    trace w' = (trace w ++ evs)%list /\
    api_increments "success" evs = [1%Z] /\
    api_increments "error" evs = [] /\
    ((exists e, In (Log WARNING ("Redis session error: " ++ str e)) evs)
     \/
     hd_error (redis_keys w')
     = Some (session_key username,
             (json_dumps (JObj [("user_id", JStr username); ("login_time", JStr now)]),
              Some 3600%Z))).
Proof.
  intros Hu Hp Hnu Hnp Hf Hc Hq.
  destruct w as [f tr logs keys us ms tp ss th]. cbv zeta.
  destruct username as [|a username]; [congruence|].
  destruct password as [|b password]; [congruence|].
  cbn [users] in Hf. cbv beta delta [fst] in Hf. cbv beta delta [snd] in Hc.
  unfold fault_at in Hq. cbn [faults] in Hq.
  unfold login. py_unfold. rewrite Hu, Hp. py_unfold.
  repeat first [sym_step | hash_step'];
    try (injection Hf as Hf; subst row);
    try congruence; try solve [no_fault Hq];
    (do 2 eexists; split; [reflexivity|]; split; [reflexivity|];
     split; [new_events|]; split; [reflexivity|]; split; [reflexivity|]);
    first
      [ solve [ right; cbn [map hd_error]; rewrite String.eqb_refl; reflexivity ]
      | solve [ left; eexists; cbn; eauto 20 ] ].
Qed.

Ltac account_step := first [quiet_call | sym_step | hash_step']; py_more.

Lemma login_quiet (data : list (string * string)) (username password : string)
      (row : string * string) (now : string) (w : World) :
  quiet w ->
  dict_get data "username" = Some username ->
  dict_get data "password" = Some password ->
  username <> "" -> password <> "" ->
  find (fun row => String.eqb (fst row) username) (users w) = Some row ->
  check_password_hash (snd row) password = true ->
  exists w1,
    login json_dumps check_password_hash (Some data) now w
    = (Ok (JObj [("status", JStr "success"); ("message", JStr "로그인 성공");
                 ("username", JStr username)], 200%nat), w1) /\
    quiet w1 /\
    session w1 = Some username /\
    users w1 = users w /\
    redis_keys w1
    = (session_key username,
       (json_dumps (JObj [("user_id", JStr username); ("login_time", JStr now)]),
        Some 3600%Z)) :: without (session_key username) (redis_keys w).
Proof.
  intros Hq Hu Hp Hnu Hnp Hf Hc.
  destruct w as [f tr logs keys us ms tp ss th].
  destruct username as [|a username]; [congruence|].
  destruct password as [|b password]; [congruence|].
  unfold quiet in Hq. cbn [faults] in Hq.
  cbn [users] in Hf. cbv beta delta [fst] in Hf. cbv beta delta [snd] in Hc.
  unfold login. py_unfold. rewrite Hu, Hp. py_unfold.
  repeat account_step;
    try (injection Hf as Hf; subst row); try congruence;
    (eexists; split; [reflexivity|]; split; [exact Hq || constructor|];
     split; [reflexivity|]; split; [reflexivity|]);
    cbn [map]; rewrite String.eqb_refl; f_equal; apply expire_without.
Qed.

Lemma register_quiet (data : list (string * string)) (username password : string)
      (w : World) :
  quiet w ->
  dict_get data "username" = Some username ->
  dict_get data "password" = Some password ->
  username <> "" -> password <> "" ->
  find (fun row => String.eqb (fst row) username) (users w) = None ->
  exists w1,
    register generate_password_hash (Some data) w
    = (Ok (JObj [("status", JStr "success");
                 ("message", JStr "회원가입이 완료되었습니다")], 200%nat), w1) /\
    quiet w1 /\
    users w1 = (users w ++ [(username, generate_password_hash password)])%list /\
    session w1 = session w.
Proof.
  intros Hq Hu Hp Hnu Hnp Hf.
  destruct w as [f tr logs keys us ms tp ss th].
  destruct username as [|a username]; [congruence|].
  destruct password as [|b password]; [congruence|].
  unfold quiet in Hq. cbn [faults] in Hq.
  cbn [users] in Hf. cbv beta delta [fst] in Hf.
  unfold register. py_unfold. rewrite Hu, Hp. py_unfold.
  repeat account_step; try congruence;
    (eexists; split; [reflexivity|]; split; [exact Hq || constructor|];
     split; reflexivity).
Qed.

Lemma logout_quiet (username : string) (w : World) :
  quiet w ->
  session w = Some username ->
  exists w1,
    logout w = (Ok (JObj [("status", JStr "success");
                          ("message", JStr "로그아웃 성공")], 200%nat), w1) /\
    quiet w1 /\
    session w1 = None /\
    redis_keys w1 = without (session_key username) (redis_keys w) /\
    users w1 = users w.
Proof.
  intros Hq Hs.
  destruct w as [f tr logs keys us ms tp ss th].
  unfold quiet in Hq. cbn [faults] in Hq. cbn [session] in Hs. subst ss.
  py_more.
  repeat account_step;
    (eexists; split; [reflexivity|]; split; [exact Hq || constructor|];
     repeat split).
Qed.

End Accounts.

Lemma find_user_absent (username : string) (table : list (string * string)) :
  ~ In username (map fst table) ->
  find (fun row => String.eqb (fst row) username) table = None.
Proof.
  intros Hn.
  destruct (find (fun row => String.eqb (fst row) username) table) as [row|] eqn:E;
    [|reflexivity].
  destruct (find_user_in _ _ _ E) as [Hin Hfst].
  exfalso. apply Hn. rewrite <- Hfst. now apply in_map.
Qed.

Section AccountsComposed.

Variable json_dumps : json -> string.
Variable generate_password_hash : string -> string.
Variable check_password_hash : string -> string -> bool.

(** X7: registering a username that is not taken and then logging in with
    the same data succeeds, provided [check_password_hash] accepts the hash
    [generate_password_hash] made of the password. *)
Theorem register_then_login
        (data : list (string * string)) (username password now : string) (w : World) :
  quiet w ->
  dict_get data "username" = Some username ->
  dict_get data "password" = Some password ->
  username <> "" -> password <> "" ->
  ~ In username (map fst (users w)) ->
  check_password_hash (generate_password_hash password) password = true ->
  let w1 := run (register generate_password_hash (Some data)) w in
  let w2 := run (login json_dumps check_password_hash (Some data) now) w1 in
  (exists body, value (register generate_password_hash (Some data)) w = Ok (body, 200%nat)) /\
  users w1 = (users w ++ [(username, generate_password_hash password)])%list /\
  (exists body,
     value (login json_dumps check_password_hash (Some data) now) w1
     = Ok (body, 200%nat)) /\
  session w2 = Some username /\
  users w2 = users w1.
Proof.
  intros Hq Hu Hp Hnu Hnp Hnew Hc. cbv zeta.
  destruct (register_quiet generate_password_hash data username password w
              Hq Hu Hp Hnu Hnp (find_user_absent _ _ Hnew))
    as (w1 & E1 & Hq1 & Hus & _).
  unfold run, value. rewrite E1. cbn [fst snd].
  destruct (login_quiet json_dumps check_password_hash data username password
              (username, generate_password_hash password) now w1
              Hq1 Hu Hp Hnu Hnp)
    as (w2 & E2 & _ & Hs & Hus2 & _).
  { rewrite Hus. now apply find_user_new. }
  { exact Hc. }
  rewrite E2. cbn [fst snd]. eauto 10.
Qed.

(** X10: logging in and then out while everything answers.  The session
    key of the user is in Redis after the login and gone after the logout,
    the session is cleared, and the other keys are as before the login. *)
Theorem login_then_logout
        (data : list (string * string)) (username password : string)
        (row : string * string) (now : string) (w : World) :
  quiet w ->
  dict_get data "username" = Some username ->
  dict_get data "password" = Some password ->
  username <> "" -> password <> "" ->
  find (fun row => String.eqb (fst row) username) (users w) = Some row ->
  check_password_hash (snd row) password = true ->
  let w1 := run (login json_dumps check_password_hash (Some data) now) w in
  let w2 := run logout w1 in
  session w1 = Some username /\
  In (session_key username) (map fst (redis_keys w1)) /\
  (exists body, value logout w1 = Ok (body, 200%nat)) /\
  session w2 = None /\
  redis_keys w2 = without (session_key username) (redis_keys w) /\
  ~ In (session_key username) (map fst (redis_keys w2)).
Proof.
  intros Hq Hu Hp Hnu Hnp Hf Hc. cbv zeta.
  destruct (login_quiet json_dumps check_password_hash data username password row now w
              Hq Hu Hp Hnu Hnp Hf Hc)
    as (w1 & E1 & Hq1 & Hs1 & _ & Hk1).
  unfold run, value. rewrite E1. cbn [fst snd].
  destruct (logout_quiet username w1 Hq1 Hs1) as (w2 & E2 & _ & Hs2 & Hk2 & _).
  rewrite E2. cbn [fst snd].
  assert (redis_keys w2 = without (session_key username) (redis_keys w)) as Hk.
  { rewrite Hk2, Hk1. unfold without at 1. cbn [filter fst].
    rewrite String.eqb_refl. cbn [negb]. apply without_without. }
  split; [exact Hs1|]. split; [rewrite Hk1; left; reflexivity|].
  split; [eauto|]. split; [exact Hs2|]. split; [exact Hk|].
  rewrite Hk. unfold without. intros Hin.
  apply in_map_iff in Hin. destruct Hin as (kv & Hkv & Hin).
  apply filter_In in Hin. destruct Hin as [_ Hneq].
  rewrite Hkv, String.eqb_refl in Hneq. discriminate.
Qed.

End AccountsComposed.

(** X9: [logout].  With no session it answers 200 and changes nothing.
    With a session it either answers 200, the session cleared and the
    user's session key deleted from Redis, or, when a Redis call failed,
    answers 500 with the session and the keys left as they were. *)
Theorem logout_outcomes (w : World) :
  let w' := run logout w in
  exists body code,
    value logout w = Ok (body, code) /\
    users w' = users w /\ messages w' = messages w /\
    match session w with
    | None => code = 200%nat /\ w' = w
    | Some username =>
        (code = 200%nat /\ session w' = None /\
         redis_keys w' = without (session_key username) (redis_keys w))
        \/
        (code = 500%nat /\ session w' = Some username /\
         redis_keys w' = redis_keys w /\
         Exists (fun f => f <> None) (faults w))
    end.
Proof.
  destruct w as [f tr logs keys us ms tp ss th]. cbv zeta. py_more.
  destruct ss as [username|]; py_more.
  - repeat (next_call; py_more);
      (do 2 eexists; split; [reflexivity|]; split; [reflexivity|];
       split; [reflexivity|]);
      first [ solve [left; repeat split]
            | solve [right; split; [reflexivity|]; split; [reflexivity|];
                     split; [reflexivity|]; cbn [faults]; some_fault] ].
  - do 2 eexists. repeat split.
Qed.

Section RegisterMore.

Variable generate_password_hash : string -> string.

(** What [register] leaves behind, on each of its ways out. *)
Lemma register_state (r : request) (w : World) :
  let w' := run (register generate_password_hash r) w in
  exists body code evs,
    value (register generate_password_hash r) w = Ok (body, code) /\
    trace w' = (trace w ++ evs)%list /\
    messages w' = messages w /\ session w' = session w /\
    ((code = 400%nat /\ users w' = users w /\ ~ In (Call db_commit) evs)
     \/
     (code = 500%nat /\ users w' = users w /\
      (r = None \/ Exists (fun f => f <> None) (faults w)))
     \/
     ((code = 200%nat \/
       (code = 500%nat /\ Exists (fun f => f <> None) (faults w))) /\
      In (Call db_commit) evs /\
      exists data username password,
        r = Some data /\
        dict_get data "username" = Some username /\
        dict_get data "password" = Some password /\
        username <> "" /\ password <> "" /\
        find (fun row => String.eqb (fst row) username) (users w) = None /\
        users w' = (users w ++ [(username, generate_password_hash password)])%list)).
Proof.
  destruct w as [f tr logs keys us ms tp ss th]. cbv zeta.
  unfold register. py_unfold.
  repeat sym_step;
    (do 3 eexists; split; [reflexivity|]; split; [new_events|];
     split; [first [reflexivity | apply app_nil_r]|]; split; [reflexivity|]);
    first
      [ solve [ left; split; [reflexivity|]; split; [reflexivity|];
                cbn; intuition discriminate ]
      | solve [ right; left; split; [reflexivity|]; split; [reflexivity|];
                first [left; reflexivity | right; cbn [faults]; some_fault] ]
      | solve [ right; right; split;
                [ first [ left; reflexivity
                        | right; split; [reflexivity|]; cbn [faults]; some_fault ] |];
                split; [cbn; auto 20|];
                do 3 eexists; split; [reflexivity|];
                split; [eassumption|]; split; [eassumption|];
                split; [discriminate|]; split; [discriminate|];
                split; [eassumption | reflexivity] ] ].
Qed.

(** X8: [register] changes [users] at most by appending the one row
    (username, hash of the password), and only for a non-empty username
    that was not in the table.  An answer of 200 means the row was
    appended, 400 that the table is unchanged.  It never writes to
    [messages] or to the session. *)
Theorem register_adds_one_row (r : request) (w : World) :
  let w' := run (register generate_password_hash r) w in
  exists body code,
    value (register generate_password_hash r) w = Ok (body, code) /\
    messages w' = messages w /\ session w' = session w /\
    (users w' = users w \/
     exists username password,
       username <> "" /\ password <> "" /\
       ~ In username (map fst (users w)) /\
       users w' = (users w ++ [(username, generate_password_hash password)])%list) /\
    (code = 200%nat -> users w' <> users w) /\
    (code = 400%nat -> users w' = users w).
Proof.
  destruct (register_state r w)
    as (body & code & evs & Hv & _ & Hm & Hs & H). cbv zeta in *.
  exists body, code. do 3 (split; [assumption|]).
  destruct H as [(Hc & Hu & _) | [(Hc & Hu & _) | (Hc & _ & data & u & p & H)]].
  - split; [now left|]. split; [intros; lia | auto].
  - split; [now left|]. split; intros; lia.
  - destruct H as (_ & _ & _ & Hnu & Hnp & Hf & Hus).
    split; [right; exists u, p; repeat split; auto using find_user_none|].
    split.
    + intros _ E. rewrite Hus in E.
      apply (f_equal (@List.length _)) in E. rewrite length_app in E. cbn in E. lia.
    + intros E. destruct Hc as [Hc | [Hc _]]; lia.
Qed.

(** X11: usernames stay distinct.  If no username occurs twice in [users]
    before [register], none does after, whatever the request and whatever
    fails. *)
Theorem register_keeps_usernames_distinct (r : request) (w : World) :
  NoDup (map fst (users w)) ->
  NoDup (map fst (users (run (register generate_password_hash r) w))).
Proof.
  intros Hnd.
  destruct (register_state r w)
    as (body & code & evs & _ & _ & _ & _ & H). cbv zeta in *.
  destruct H as [(_ & Hu & _) | [(_ & Hu & _) | (_ & _ & data & u & p & H)]];
    try (rewrite Hu; exact Hnd).
  destruct H as (_ & _ & _ & _ & _ & Hf & Hus).
  rewrite Hus, map_app. cbn [map fst].
  apply (Permutation_NoDup (Permutation_cons_append (map fst (users w)) u)).
  constructor; [now apply find_user_none | exact Hnd].
Qed.

End RegisterMore.

(** Witness of [register_keeps_usernames_distinct]. *)
Lemma register_keeps_usernames_distinct_witness :
  let w := set_users [("alice", sample_hash "secret")] empty_world in
  let r := Some [("username", "bob"); ("password", "hunter2")] in
  NoDup (map fst (users w)) /\
  NoDup (map fst (users (run (register sample_hash r) w))).
Proof.
  cbv zeta.
  assert (NoDup (map fst (users (set_users [("alice", sample_hash "secret")]
                                           empty_world)))) as Hnd
      by (repeat constructor; cbn; tauto).
  split; [exact Hnd|].
  exact (register_keeps_usernames_distinct sample_hash
           (Some [("username", "bob"); ("password", "hunter2")]) _ Hnd).
Defined.

(** ** Messages *)

Section Messages.

Variable json_dumps : json -> string.
Variable json_loads : string -> option json.

(** What [save_to_db] leaves behind, on each of its ways out. *)
Lemma save_to_db_state (r : request) (created_at now : string) (w : World) :
  let w' := run (save_to_db json_dumps r created_at now) w in
  exists body code evs,
    value (save_to_db json_dumps r created_at now) w = Ok (body, code) /\
    trace w' = (trace w ++ evs)%list /\
    users w' = users w /\ session w' = session w /\
    match session w with
    | None => code = 401%nat /\ w' = w
    | Some user_id =>
        (code = 200%nat /\
         threads w' = (threads w ++ [LogTask "/db/message" "POST" "success"
                                             (Some user_id)])%list /\
         exists data message,
           r = Some data /\ dict_get data "message" = Some message /\
           messages w' = (messages w ++ [(message, created_at)])%list)
        \/
        (code = 500%nat /\
         threads w' = (threads w ++ [LogTask "/db/message" "POST" "error"
                                             (Some user_id)])%list /\
         (messages w' = messages w \/
          (In (Call db_commit) evs /\
           exists data message,
             r = Some data /\ dict_get data "message" = Some message /\
             messages w' = (messages w ++ [(message, created_at)])%list)))
    end.
Proof.
  destruct w as [f tr logs keys us ms tp ss th]. cbv zeta.
  unfold save_to_db. py_unfold.
  destruct ss as [user_id|]; py_unfold.
  2:{ do 3 eexists. split; [reflexivity|]. split; [new_events|]. repeat split. }
  repeat sym_step;
    (do 3 eexists; split; [reflexivity|]; split; [new_events|];
     split; [first [reflexivity | apply app_nil_r]|]; split; [reflexivity|]);
    first
      [ solve [ left; split; [reflexivity|]; split; [reflexivity|];
                do 2 eexists; split; [reflexivity|]; split; [eassumption|reflexivity] ]
      | solve [ right; split; [reflexivity|]; split; [reflexivity|];
                left; reflexivity ]
      | solve [ right; split; [reflexivity|]; split; [reflexivity|];
                right; split; [cbn; auto 30|];
                do 2 eexists; split; [reflexivity|]; split; [eassumption|reflexivity] ] ].
Qed.

End Messages.

Section MessagesComposed.

Variable json_dumps : json -> string.
Variable json_loads : string -> option json.

(** X12: [save_to_db] changes [messages] at most by appending the row
    (message, created_at) of the request, and an answer of 200 means the
    row is there.  Without a session nothing at all changes.  [users] and
    the session are never modified. *)
Theorem save_to_db_persists (r : request) (created_at now : string) (w : World) :
  let w' := run (save_to_db json_dumps r created_at now) w in
  exists body code,
    value (save_to_db json_dumps r created_at now) w = Ok (body, code) /\
    users w' = users w /\ session w' = session w /\
    (session w = None -> code = 401%nat /\ w' = w) /\
    (messages w' = messages w \/
     exists data message,
       r = Some data /\ dict_get data "message" = Some message /\
       messages w' = (messages w ++ [(message, created_at)])%list) /\
    (code = 200%nat -> messages w' <> messages w).
Proof.
  destruct (save_to_db_state json_dumps r created_at now w)
    as (body & code & evs & Hv & _ & Hu & Hs & H). cbv zeta in *.
  exists body, code. do 3 (split; [assumption|]).
  destruct (session w) as [user_id|].
  - split; [discriminate|].
    destruct H as [(Hc & _ & data & m & Hr & Hd & Hm)
                  | (Hc & _ & [Hm | (_ & data & m & Hr & Hd & Hm)])].
    + split; [right; eauto|]. intros _ E. rewrite Hm in E.
      apply (f_equal (@List.length _)) in E. rewrite length_app in E. cbn in E. lia.
    + split; [now left | intros; lia].
    + split; [right; eauto | intros; lia].
  - destruct H as [Hc Hw]. split; [auto|]. rewrite Hw.
    split; [now left | intros; lia].
Qed.

(** X13: [save_to_db] called with a session starts exactly one publisher
    thread, for POST /db/message and the user of the session, labelled
    [success] when the answer is 200 and [error] when it is 500; without a
    session it starts none. *)
Theorem save_to_db_publishes_outcome (r : request) (created_at now : string) (w : World) :
  let w' := run (save_to_db json_dumps r created_at now) w in
  exists body code,
    value (save_to_db json_dumps r created_at now) w = Ok (body, code) /\
    match session w with
    | None => threads w' = threads w
    | Some user_id =>
        exists status,
          threads w' = (threads w ++ [LogTask "/db/message" "POST" status
                                              (Some user_id)])%list /\
          (code = 200%nat /\ status = "success" \/ code = 500%nat /\ status = "error")
    end.
Proof.
  destruct (save_to_db_state json_dumps r created_at now w)
    as (body & code & evs & Hv & _ & _ & _ & H). cbv zeta in *.
  exists body, code. split; [assumption|].
  destruct (session w) as [user_id|].
  - destruct H as [(Hc & Ht & _) | (Hc & Ht & _)]; eauto 6.
  - destruct H as [_ Hw]. now rewrite Hw.
Qed.

Lemma save_to_db_quiet (data : list (string * string)) (message user_id : string)
      (created_at now : string) (w : World) :
  quiet w ->
  session w = Some user_id ->
  dict_get data "message" = Some message ->
  exists w1,
    save_to_db json_dumps (Some data) created_at now w
    = (Ok (JObj [("status", JStr "success")], 200%nat), w1) /\
    quiet w1 /\
    session w1 = Some user_id /\
    messages w1 = (messages w ++ [(message, created_at)])%list /\
    api_logs w1
    = firstn 100
        (json_dumps (log_entry now "db_insert"
                               ("Message saved: " ++ slice_to 30 message ++ "..."))
           :: api_logs w).
Proof.
  intros Hq Hs Hm.
  destruct w as [f tr logs keys us ms tp ss th].
  unfold quiet in Hq. cbn [faults] in Hq. cbn [session] in Hs. subst ss.
  unfold save_to_db. py_unfold. rewrite Hm. py_unfold.
  repeat quiet_call; rewrite ?redis_range_head;
    (eexists; split; [reflexivity|]; split; [exact Hq || constructor|];
     repeat split).
Qed.

Lemma get_from_db_quiet (user_id : string) (w : World) :
  quiet w ->
  session w = Some user_id ->
  value get_from_db w
  = Ok (JArr (map message_row (sort_reverse snd (messages w))), 200%nat).
Proof.
  intros Hq Hs.
  destruct w as [f tr logs keys us ms tp ss th].
  unfold quiet in Hq. cbn [faults] in Hq. cbn [session] in Hs. subst ss.
  unfold get_from_db. py_unfold.
  repeat quiet_call; reflexivity.
Qed.

(** X14: a message saved while everything answers is listed by the next
    [get_from_db], next to the rows that were there. *)
Theorem save_then_list (data : list (string * string)) (message user_id : string)
        (created_at now : string) (w : World) :
  quiet w ->
  session w = Some user_id ->
  dict_get data "message" = Some message ->
  let w1 := run (save_to_db json_dumps (Some data) created_at now) w in
  exists rows,
    value get_from_db w1 = Ok (JArr (map message_row rows), 200%nat) /\
    Permutation rows (messages w ++ [(message, created_at)])%list /\
    In (message, created_at) rows.
Proof.
  intros Hq Hs Hm. cbv zeta.
  destruct (save_to_db_quiet data message user_id created_at now w Hq Hs Hm)
    as (w1 & E & Hq1 & Hs1 & Hms & _).
  unfold run. rewrite E. cbn [snd].
  exists (sort_reverse snd (messages w1)).
  split; [apply (get_from_db_quiet user_id w1 Hq1 Hs1)|].
  assert (Permutation (sort_reverse snd (messages w1))
                      (messages w ++ [(message, created_at)])%list) as Hp
      by (rewrite <- Hms; symmetry; apply sort_reverse_perm).
  split; [exact Hp|].
  apply (Permutation_in _ (Permutation_sym Hp)), in_or_app. right. now left.
Qed.

(** X15: a message saved while everything answers shows as the last item
    of the next [get_redis_logs]: the [db_insert] entry with the first 30
    characters of the message. *)
Theorem save_then_read_activity
        (data : list (string * string)) (message user_id : string)
        (created_at now : string) (w : World) :
  quiet w ->
  session w = Some user_id ->
  dict_get data "message" = Some message ->
  let w1 := run (save_to_db json_dumps (Some data) created_at now) w in
  exists out,
    value (get_redis_logs json_loads) w1 = Ok (JArr out, 200%nat) /\
    last out JNull
    = load_item json_loads
        (json_dumps (log_entry now "db_insert"
                               ("Message saved: " ++ slice_to 30 message ++ "..."))).
Proof.
  intros Hq Hs Hm. cbv zeta.
  destruct (save_to_db_quiet data message user_id created_at now w Hq Hs Hm)
    as (w1 & E & Hq1 & _ & _ & Hl).
  unfold run. rewrite E. cbn [snd].
  eexists. split; [apply (get_redis_logs_quiet json_loads w1 Hq1)|].
  rewrite Hl.
  set (entry := json_dumps (log_entry now "db_insert"
                              ("Message saved: " ++ slice_to 30 message ++ "..."))).
  change (firstn 100 (entry :: api_logs w)) with (entry :: firstn 99 (api_logs w)).
  cbn [List.length].
  replace (S (List.length (firstn 99 (api_logs w))) - 100)%nat with 0%nat
    by (pose proof (firstn_le_length 99 (api_logs w)); lia).
  cbn [skipn map rev]. apply last_last.
Qed.

End MessagesComposed.

(** X16: [get_from_db] writes nothing, whatever fails; when everything
    answers and somebody is logged in it returns every row of [messages],
    sorted by [created_at], largest first. *)
Theorem get_from_db_lists_all (w : World) :
  let w' := run get_from_db w in
  users w' = users w /\ messages w' = messages w /\ session w' = session w /\
  api_logs w' = api_logs w /\
  (forall user_id,
     quiet w -> session w = Some user_id ->
     exists rows,
       value get_from_db w = Ok (JArr (map message_row rows), 200%nat) /\
       Permutation (messages w) rows /\
       StronglySorted (fun a b => String.leb (snd b) (snd a) = true) rows).
Proof.
  cbv zeta. split; [|split; [|split; [|split]]].
  5:{ intros user_id Hq Hs. exists (sort_reverse snd (messages w)).
      split; [apply (get_from_db_quiet user_id w Hq Hs)|].
      split; [apply sort_reverse_perm|].
      apply Sorted_StronglySorted; [|apply sort_reverse_sorted].
      intros a b c Hab Hbc. eapply string_leb_trans; eassumption. }
  all: destruct w as [f tr logs keys us ms tp ss th];
    unfold get_from_db; py_unfold; destruct ss; py_unfold;
    repeat next_call; reflexivity.
Qed.

(** X17: [get_from_db] called with a session starts exactly one publisher
    thread, for GET /db/messages and the user of the session, labelled
    [success] when the answer is 200 and [error] when it is 500, which only
    happens when a MariaDB call failed; without a session it answers 401
    and changes nothing. *)
Theorem get_from_db_publishes_outcome (w : World) :
  let w' := run get_from_db w in
  exists body code,
    value get_from_db w = Ok (body, code) /\
    match session w with
    | None => code = 401%nat /\ w' = w
    | Some user_id =>
        exists status,
          threads w' = (threads w ++ [LogTask "/db/messages" "GET" status
                                              (Some user_id)])%list /\
          ((code = 200%nat /\ status = "success") \/
           (code = 500%nat /\ status = "error" /\
            Exists (fun f => f <> None) (faults w)))
    end.
Proof.
  destruct w as [f tr logs keys us ms tp ss th]. cbv zeta.
  unfold get_from_db. py_unfold. destruct ss as [user_id|]; py_unfold.
  2:{ do 2 eexists. repeat split. }
  repeat next_call;
    (do 2 eexists; split; [reflexivity|]; eexists; split; [reflexivity|]);
    first [ solve [left; split; reflexivity]
          | solve [right; split; [reflexivity|]; split; [reflexivity|];
                   cbn [faults]; some_fault] ].
Qed.

Section SearchMore.

Variable sql_like : string -> string -> bool.

(** X18: [search_messages] never raises and writes to no table.  With a
    session it answers 200 with exactly the rows of [messages] that MariaDB
    finds LIKE [%q%] (all rows when [q] is missing from the query string:
    the default is the empty string), or 500 when a MariaDB call failed;
    either way it starts one publisher thread labelled with the outcome. *)
Theorem search_messages_report (args : list (string * string)) (w : World) :
  let w' := run (search_messages sql_like args) w in
  let pattern := "%" ++ args_get args "q" "" ++ "%" in
  exists body code,
    value (search_messages sql_like args) w = Ok (body, code) /\
    users w' = users w /\ messages w' = messages w /\ session w' = session w /\
    match session w with
    | None => code = 401%nat /\ w' = w
    | Some user_id =>
        (code = 200%nat /\
         threads w' = (threads w ++ [LogTask "/db/messages/search" "GET" "success"
                                             (Some user_id)])%list /\
         exists rows,
           body = JArr (map message_row rows) /\
           (forall row, In row rows <->
                        In row (messages w) /\ sql_like pattern (fst row) = true))
        \/
        (code = 500%nat /\
         threads w' = (threads w ++ [LogTask "/db/messages/search" "GET" "error"
                                             (Some user_id)])%list /\
         Exists (fun f => f <> None) (faults w))
    end.
Proof.
  destruct w as [f tr logs keys us ms tp ss th]. cbv zeta.
  py_more. destruct ss as [user_id|]; py_more.
  2:{ do 2 eexists. repeat split. }
  repeat (next_call; py_more);
    (do 2 eexists; split; [reflexivity|]; do 3 (split; [reflexivity|]));
    first
      [ solve [ right; split; [reflexivity|]; split; [reflexivity|];
                cbn [faults]; some_fault ]
      | left; split; [reflexivity|]; split; [reflexivity|];
        eexists; split; [reflexivity|] ].
  all: intros row; split;
    [ intros Hin;
      apply (Permutation_in _ (Permutation_sym (sort_reverse_perm _ _))) in Hin;
      apply filter_In in Hin; exact Hin
    | intros [Hin Hl];
      apply (Permutation_in _ (sort_reverse_perm _ _));
      apply filter_In; split; assumption ].
Qed.

End SearchMore.

Section LoginCounts.

Variable json_dumps : json -> string.
Variable check_password_hash : string -> string -> bool.

(** X19: every [login] moves [api.calls] exactly once: under [success]
    when the answer is 200, under [error] when it is 400, 401 or 500. *)
Theorem login_counts_once (r : request) (now : string) (w : World) :
  exists body code evs,
    value (login json_dumps check_password_hash r now) w = Ok (body, code) /\
    trace (run (login json_dumps check_password_hash r now) w) = (trace w ++ evs)%list /\
    (code = 200%nat \/ code = 400%nat \/ code = 401%nat \/ code = 500%nat) /\
    api_increments "success" evs = (if (code =? 200)%nat then [1%Z] else []) /\
    api_increments "error" evs = (if (code =? 200)%nat then [] else [1%Z]).
Proof.
  destruct (login_report json_dumps check_password_hash r now w)
    as (body & code & evs & Hv & Ht & _ & _ & _ & H).
  exists body, code, evs. do 2 (split; [assumption|]).
  destruct H as [(Hc & Hs & He) | (Hc & Hs & He)].
  - subst code. auto.
  - destruct Hc as [Hc | [Hc | Hc]]; subst code; auto 6.
Qed.

End LoginCounts.

(** X20: with nobody logged in, [save_to_db], [get_from_db],
    [search_messages] and [get_kafka_logs] all answer 401 and leave the
    world as it is: no external call is made, nothing is reported. *)
Theorem protected_handlers_require_login
        (json_dumps : json -> string) (sql_like : string -> string -> bool)
        (r : request) (created_at now : string) (args : list (string * string))
        (incoming : list AuditEvent) (w : World) :
  session w = None ->
  let denied := (Ok (error_body "로그인이 필요합니다", 401%nat), w) in
  save_to_db json_dumps r created_at now w = denied /\
  get_from_db w = denied /\
  search_messages sql_like args w = denied /\
  get_kafka_logs incoming w = denied.
Proof.
  intros Hs. cbv zeta.
  unfold save_to_db, get_from_db, search_messages, get_kafka_logs, login_required,
    bind, gets.
  rewrite Hs. repeat split.
Qed.

(** Witness of [protected_handlers_require_login]. *)
Lemma protected_handlers_require_login_witness :
  session empty_world = None /\
  get_kafka_logs [] empty_world
  = (Ok (error_body "로그인이 필요합니다", 401%nat), empty_world).
Proof.
  assert (session empty_world = None) as Hs by reflexivity.
  split; [exact Hs|].
  apply (protected_handlers_require_login sample_dumps (fun _ _ => true) None "" ""
           [] [] empty_world Hs).
Defined.

(** ** The consumer *)

(** The calls on the consumer in a trace. *)
Definition on_consumer (evs : list event) : list event :=
  filter (fun ev => match ev with
                    | Call consumer_next | Call consumer_close => true
                    | _ => false
                    end) evs.

Lemma on_consumer_nexts (n : nat) :
  on_consumer (repeat (Call consumer_next) n) = repeat (Call consumer_next) n.
Proof.
  induction n as [|n IH]; cbn; [reflexivity|]. unfold on_consumer in IH. now rewrite IH.
Qed.

Lemma call_result (c : extcall) (w : World) :
  exists fs,
    call c w = (match fault_at w 0 with Some e => Raise e | None => Ok tt end,
                set_faults fs (emit (Call c) w)).
Proof.
  destruct w as [f tr logs keys us ms tp ss th]. unfold call, fault_at. cbn.
  destruct f as [|[e|] fs]; [exists [] | exists fs | exists fs]; reflexivity.
Qed.

Lemma consume_asks (incoming : list AuditEvent) :
  forall (logs : list AuditEvent) (w : World),
    (List.length logs < 100)%nat ->
    exists n,
      (n <= 100 - List.length logs)%nat /\
      trace (snd (consume incoming logs w))
      = (trace w ++ repeat (Call consumer_next) n)%list.
Proof.
  induction incoming as [|message rest IH]; intros logs w Hroom.
  - exists 1%nat. split; [lia|]. cbn [consume]. unfold bind.
    destruct (call_result consumer_next w) as [fs E]. rewrite E.
    destruct (fault_at w 0); reflexivity.
  - cbn [consume]. unfold bind.
    destruct (call_result consumer_next w) as [fs E]. rewrite E.
    destruct (fault_at w 0) as [e|].
    + exists 1%nat. split; [lia | reflexivity].
    + rewrite length_app. cbn [List.length].
      destruct (Nat.leb_spec 100 (List.length logs + 1)) as [Hfull | Hmore].
      * exists 1%nat. split; [lia | reflexivity].
      * match goal with
        | |- context [consume rest ?l ?w1] =>
            destruct (IH l w1) as (n & Hn & Ht);
            [rewrite length_app; cbn; lia|]
        end.
        rewrite length_app in Hn. cbn [List.length] in Hn.
        exists (S n). split; [lia|]. rewrite Ht.
        cbn [trace set_faults emit repeat]. now rewrite <- app_assoc.
Qed.

(** X21: [get_kafka_logs] with a session.  When the consumer cannot be
    created, nothing else is asked of it.  Otherwise, whatever fails later,
    the iterator is asked at most 100 times and the consumer is then closed,
    exactly once. *)
Theorem get_kafka_logs_closes_consumer (incoming : list AuditEvent) (w : World) :
  session w <> None ->
  exists evs,
    trace (run (get_kafka_logs incoming) w) = (trace w ++ evs)%list /\
    hd_error evs = Some (Call kafka_consumer) /\
    match fault_at w 0 with
    | Some _ => on_consumer evs = []
    | None =>
        exists n, (n <= 100)%nat /\
                  on_consumer evs
                  = (repeat (Call consumer_next) n ++ [Call consumer_close])%list
    end.
Proof.
  intros Hs. unfold run, get_kafka_logs, login_required, bind at 1, gets.
  destruct (session w) as [user_id|]; [clear Hs | congruence].
  unfold try_except, bind, try_finally, print, tell, ret.
  destruct (call_result kafka_consumer w) as [fs E]. rewrite E.
  destruct (fault_at w 0) as [e|].
  - eexists. split; [cbn [snd trace set_faults emit]; new_events|].
    split; reflexivity.
  - set (w1 := set_faults fs (emit (Call kafka_consumer) w)).
    destruct (consume_asks incoming [] w1) as (n & Hn & Ht); [cbn; lia|].
    cbn [List.length] in Hn.
    destruct (consume incoming [] w1) as [r w2]. cbn [snd] in Ht.
    destruct (call_result consumer_close w2) as [fs2 E2]. 
    exists ([Call kafka_consumer] ++ repeat (Call consumer_next) n
            ++ [Call consumer_close]
            ++ match r, fault_at w2 0 with
               | Ok _, None => []
               | Ok _, Some e' => [Print ("Kafka log retrieval error: " ++ str e')]
               | Raise e, None => [Print ("Kafka log retrieval error: " ++ str e)]
               | Raise _, Some e' => [Print ("Kafka log retrieval error: " ++ str e')]
               end)%list.
    split; [|split; [reflexivity|]].
    + destruct r; rewrite E2; destruct (fault_at w2 0);
        cbn [snd trace set_faults emit]; rewrite Ht; subst w1;
        cbn [trace set_faults emit]; rewrite <- ?app_assoc; cbn [app];
        rewrite ?app_nil_r; reflexivity.
    + exists n. split; [lia|].
      unfold on_consumer. rewrite !filter_app. fold (on_consumer (repeat (Call consumer_next) n)).
      rewrite on_consumer_nexts. cbn [filter app].
      destruct r, (fault_at w2 0); cbn [filter]; rewrite ?app_nil_r; reflexivity.
Qed.

(** Witness of [get_kafka_logs_closes_consumer]. *)
Lemma get_kafka_logs_closes_consumer_witness :
  let w := set_session (Some "alice") empty_world in
  session w <> None /\
  exists evs,
    trace (run (get_kafka_logs []) w) = (trace w ++ evs)%list /\
    hd_error evs = Some (Call kafka_consumer) /\
    match fault_at w 0 with
    | Some _ => on_consumer evs = []
    | None =>
        exists n, (n <= 100)%nat /\
                  on_consumer evs
                  = (repeat (Call consumer_next) n ++ [Call consumer_close])%list
    end.
Proof.
  cbv zeta.
  assert (session (set_session (Some "alice") empty_world) <> None) as Hs
      by discriminate.
  split; [exact Hs|].
  exact (get_kafka_logs_closes_consumer [] _ Hs).
Defined.

(** ** Ties in the sort *)

Section Stable.

Context {A : Type} (key : A -> string).

(** The items of a list whose key is [k], in order. *)
Definition keyed (k : string) (l : list A) : list A :=
  filter (fun x => String.eqb (key x) k) l.

Lemma insert_reverse_keyed (k : string) (x : A) (l : list A) :
  keyed k (insert_reverse key x l) = keyed k (x :: l).
Proof.
  induction l as [|y l IH]; [reflexivity|].
  cbn [insert_reverse]. destruct (String.leb (key y) (key x)) eqn:E; [reflexivity|].
  unfold keyed in *. cbn [filter] in *. rewrite IH.
  destruct (String.eqb (key x) k) eqn:Ex, (String.eqb (key y) k) eqn:Ey; try reflexivity.
  apply String.eqb_eq in Ex, Ey. rewrite Ex, Ey in E.
  unfold String.leb in E.
  replace (String.compare k k) with Eq in E; [discriminate|].
  symmetry. destruct (String.compare k k) eqn:C; [reflexivity| |];
    pose proof (String.compare_antisym k k) as Ha; rewrite C in Ha; discriminate.
Qed.

Lemma sort_reverse_keyed (k : string) (l : list A) :
  keyed k (sort_reverse key l) = keyed k l.
Proof.
  induction l as [|x l IH]; [reflexivity|].
  cbn [sort_reverse fold_right]. fold (sort_reverse key l).
  rewrite insert_reverse_keyed. unfold keyed in *. cbn [filter]. now rewrite IH.
Qed.

End Stable.

Lemma get_kafka_logs_quiet (incoming : list AuditEvent) (user_id : string) (w : World) :
  quiet w ->
  session w = Some user_id ->
  value (get_kafka_logs incoming) w
  = Ok (JArr (map audit_json (sort_reverse ev_timestamp (firstn 100 incoming))),
        200%nat).
Proof.
  intros Hq Hs.
  unfold value, get_kafka_logs, login_required, bind at 1, gets. rewrite Hs.
  unfold try_except, bind, try_finally.
  destruct (call_outcome kafka_consumer w) as [fs [[Ec Hfs] | [e [_ Hn]]]];
    [|contradiction].
  rewrite Ec. set (w1 := set_faults fs (emit (Call kafka_consumer) w)).
  assert (quiet w1) as Hq1 by (subst w1; destruct w; apply Hfs, Hq).
  destruct (consume_quiet incoming [] w1 Hq1) as (l & w2 & E & Hq2). rewrite E.
  apply consume_returns in E; [|cbn; lia]. destruct E as (El & _). cbn in El. subst l.
  destruct (call_outcome consumer_close w2) as [fs2 [[Ec2 _] | [e [_ Hn]]]];
    [|contradiction].
  rewrite Ec2. reflexivity.
Qed.

(** X22: in the answer of [get_kafka_logs], records with the same timestamp
    keep the order in which they were delivered. *)
Theorem get_kafka_logs_keeps_ties_in_order
        (incoming : list AuditEvent) (user_id : string) (w : World) :
  quiet w ->
  session w = Some user_id ->
  exists logs,
    value (get_kafka_logs incoming) w = Ok (JArr (map audit_json logs), 200%nat) /\
    forall timestamp,
      keyed ev_timestamp timestamp logs
      = keyed ev_timestamp timestamp (firstn 100 incoming).
Proof.
  intros Hq Hs. eexists. split; [apply (get_kafka_logs_quiet incoming user_id w Hq Hs)|].
  intros timestamp. apply sort_reverse_keyed.
Qed.

(** Witness of [get_kafka_logs_keeps_ties_in_order]: two records of the same
    instant. *)
Lemma get_kafka_logs_keeps_ties_in_order_witness :
  let w := set_session (Some "alice") empty_world in
  let first := mkAuditEvent "2024-01-01T00:00:00" "/db/message" "POST" "success"
                            (Some "alice") "first" in
  let second := mkAuditEvent "2024-01-01T00:00:00" "/db/messages" "GET" "success"
                             (Some "alice") "second" in
  quiet w /\ session w = Some "alice" /\
  value (get_kafka_logs [first; second]) w
  = Ok (JArr [audit_json first; audit_json second], 200%nat).
Proof.
  cbv zeta.
  assert (quiet (set_session (Some "alice") empty_world)) as Hq by constructor.
  assert (session (set_session (Some "alice") empty_world) = Some "alice") as Hs
      by reflexivity.
  split; [exact Hq|]. split; [exact Hs|].
  destruct (get_kafka_logs_keeps_ties_in_order
              [mkAuditEvent "2024-01-01T00:00:00" "/db/message" "POST" "success"
                            (Some "alice") "first";
               mkAuditEvent "2024-01-01T00:00:00" "/db/messages" "GET" "success"
                            (Some "alice") "second"]
              "alice" _ Hq Hs) as (logs & Hv & _).
  reflexivity.
Defined.

(** ** Runs of the composed properties *)

(** Alice's credentials, and a world where she is registered. *)
Definition alice_data : list (string * string) :=
  [("username", "alice"); ("password", "secret")].

Definition alice_registered : World :=
  set_users [("alice", sample_hash "secret")] empty_world.

(** Witness of [login_survives_redis_outage]: MariaDB answers, Redis is
    down for all three attempts. *)
Lemma login_survives_redis_outage_witness :
  let down := Some (Exn "ConnectionError" "Error 111 connecting to my-redis-master:6379") in
  let w := set_faults [None; None; None; None; None; down; down; down] alice_registered in
  dict_get alice_data "username" = Some "alice" /\
  dict_get alice_data "password" = Some "secret" /\
  "alice" <> "" /\ "secret" <> "" /\
  find (fun row => String.eqb (fst row) "alice") (users w)
  = Some ("alice", sample_hash "secret") /\
  sample_check (snd ("alice", sample_hash "secret")) "secret" = true /\
  (forall k, (k < 5)%nat -> fault_at w k = None) /\
  session (run (login sample_dumps sample_check (Some alice_data) "t0") w) = Some "alice".
Proof.
  cbv zeta.
  set (w := set_faults _ alice_registered).
  assert (dict_get alice_data "username" = Some "alice") as Hu by reflexivity.
  assert (dict_get alice_data "password" = Some "secret") as Hp by reflexivity.
  assert ("alice" <> "") as Hnu by discriminate.
  assert ("secret" <> "") as Hnp by discriminate.
  assert (find (fun row => String.eqb (fst row) "alice") (users w)
          = Some ("alice", sample_hash "secret")) as Hf by reflexivity.
  assert (sample_check (snd ("alice", sample_hash "secret")) "secret" = true) as Hc
      by reflexivity.
  assert (forall k, (k < 5)%nat -> fault_at w k = None) as Hq
      by (intros k Hk; destruct k as [|[|[|[|[|k]]]]]; try reflexivity; lia).
  repeat (split; [assumption|]).
  destruct (login_survives_redis_outage sample_dumps sample_check alice_data
              "alice" "secret" _ "t0" w Hu Hp Hnu Hnp Hf Hc Hq)
    as (body & evs & _ & Hs & _).
  exact Hs.
Defined.

(** Witness of [register_then_login]: alice registers in the empty world. *)
Lemma register_then_login_witness :
  quiet empty_world /\
  dict_get alice_data "username" = Some "alice" /\
  dict_get alice_data "password" = Some "secret" /\
  "alice" <> "" /\ "secret" <> "" /\
  ~ In "alice" (map fst (users empty_world)) /\
  sample_check (sample_hash "secret") "secret" = true /\
  session (run (login sample_dumps sample_check (Some alice_data) "t1")
               (run (register sample_hash (Some alice_data)) empty_world))
  = Some "alice".
Proof.
  assert (quiet empty_world) as Hq by constructor.
  assert (dict_get alice_data "username" = Some "alice") as Hu by reflexivity.
  assert (dict_get alice_data "password" = Some "secret") as Hp by reflexivity.
  assert ("alice" <> "") as Hnu by discriminate.
  assert ("secret" <> "") as Hnp by discriminate.
  assert (~ In "alice" (map fst (users empty_world))) as Hn by (cbn; tauto).
  assert (sample_check (sample_hash "secret") "secret" = true) as Hc by reflexivity.
  repeat (split; [assumption|]).
  apply (register_then_login sample_dumps sample_hash sample_check alice_data
           "alice" "secret" "t1" empty_world Hq Hu Hp Hnu Hnp Hn Hc).
Defined.

(** Witness of [login_then_logout]. *)
Lemma login_then_logout_witness :
  quiet alice_registered /\
  dict_get alice_data "username" = Some "alice" /\
  dict_get alice_data "password" = Some "secret" /\
  "alice" <> "" /\ "secret" <> "" /\
  find (fun row => String.eqb (fst row) "alice") (users alice_registered)
  = Some ("alice", sample_hash "secret") /\
  sample_check (snd ("alice", sample_hash "secret")) "secret" = true /\
  session (run logout
               (run (login sample_dumps sample_check (Some alice_data) "t0")
                    alice_registered))
  = None.
Proof.
  assert (quiet alice_registered) as Hq by constructor.
  assert (dict_get alice_data "username" = Some "alice") as Hu by reflexivity.
  assert (dict_get alice_data "password" = Some "secret") as Hp by reflexivity.
  assert ("alice" <> "") as Hnu by discriminate.
  assert ("secret" <> "") as Hnp by discriminate.
  assert (find (fun row => String.eqb (fst row) "alice") (users alice_registered)
          = Some ("alice", sample_hash "secret")) as Hf by reflexivity.
  assert (sample_check (snd ("alice", sample_hash "secret")) "secret" = true) as Hc
      by reflexivity.
  repeat (split; [assumption|]).
  apply (login_then_logout sample_dumps sample_check alice_data "alice" "secret"
           _ "t0" alice_registered Hq Hu Hp Hnu Hnp Hf Hc).
Defined.

(** Witness of [save_then_list]: alice saves [hello]. *)
Lemma save_then_list_witness :
  let w := set_session (Some "alice") empty_world in
  quiet w /\ session w = Some "alice" /\
  dict_get [("message", "hello")] "message" = Some "hello" /\
  exists rows,
    value get_from_db
          (run (save_to_db sample_dumps (Some [("message", "hello")]) "t0" "t1") w)
    = Ok (JArr (map message_row rows), 200%nat) /\
    Permutation rows (messages w ++ [("hello", "t0")])%list /\
    In ("hello", "t0") rows.
Proof.
  cbv zeta.
  assert (quiet (set_session (Some "alice") empty_world)) as Hq by constructor.
  assert (session (set_session (Some "alice") empty_world) = Some "alice") as Hs
      by reflexivity.
  assert (dict_get [("message", "hello")] "message" = Some "hello") as Hm by reflexivity.
  repeat (split; [assumption|]).
  exact (save_then_list sample_dumps [("message", "hello")] "hello" "alice" "t0" "t1"
           _ Hq Hs Hm).
Defined.

(** Witness of [save_then_read_activity]. *)
Lemma save_then_read_activity_witness :
  let w := set_session (Some "alice") empty_world in
  quiet w /\ session w = Some "alice" /\
  dict_get [("message", "hello")] "message" = Some "hello" /\
  exists out,
    value (get_redis_logs sample_loads)
          (run (save_to_db sample_dumps (Some [("message", "hello")]) "t0" "t1") w)
    = Ok (JArr out, 200%nat) /\
    last out JNull
    = load_item sample_loads
        (sample_dumps (log_entry "t1" "db_insert"
                                 ("Message saved: " ++ slice_to 30 "hello" ++ "..."))).
Proof.
  cbv zeta.
  assert (quiet (set_session (Some "alice") empty_world)) as Hq by constructor.
  assert (session (set_session (Some "alice") empty_world) = Some "alice") as Hs
      by reflexivity.
  assert (dict_get [("message", "hello")] "message" = Some "hello") as Hm by reflexivity.
  repeat (split; [assumption|]).
  exact (save_then_read_activity sample_dumps sample_loads [("message", "hello")]
           "hello" "alice" "t0" "t1" _ Hq Hs Hm).
Defined.

(** ** Missing fields *)

(** X24: [register] rejects a request without username or password, or
    with an empty one, with 400 before anything else happens: the world is
    left as it is. *)
Theorem register_rejects_missing_fields
        (generate_password_hash : string -> string)
        (data : list (string * string)) (w : World) :
  (not_ (dict_get data "username") || not_ (dict_get data "password"))%bool = true ->
  register generate_password_hash (Some data) w
  = (Ok (error_body "사용자명과 비밀번호는 필수입니다", 400%nat), w).
Proof.
  intros H. unfold register. py_unfold. revert H.
  destruct (dict_get data "username") as [[|a u]|],
           (dict_get data "password") as [[|b p]|];
    cbn; intros H; try discriminate; reflexivity.
Qed.

(** X25: [login] rejects a request without username or password, or with
    an empty one, with 400: it counts the error and makes no external call;
    the session, the tables and the Redis keys are as before. *)
Theorem login_rejects_missing_fields
        (json_dumps : json -> string) (check_password_hash : string -> string -> bool)
        (data : list (string * string)) (now : string) (w : World) :
  (not_ (dict_get data "username") || not_ (dict_get data "password"))%bool = true ->
  let w' := run (login json_dumps check_password_hash (Some data) now) w in
  value (login json_dumps check_password_hash (Some data) now) w
  = Ok (error_body "사용자명과 비밀번호는 필수입니다", 400%nat) /\
  trace w'
  = (trace w ++ [SpanStart "login";
                 SpanSetAttribute "user.username" (json_opt (dict_get data "username"));
                 CounterAdd "api.calls" 1 [("endpoint", "/login"); ("method", "POST");
                                           ("status", "error")];
                 SpanEnd "login"])%list /\
  faults w' = faults w /\ session w' = session w /\
  users w' = users w /\ redis_keys w' = redis_keys w.
Proof.
  intros H. destruct w as [f tr logs keys us ms tp ss th]. cbv zeta.
  unfold login. py_unfold. revert H.
  destruct (dict_get data "username") as [[|a u]|],
           (dict_get data "password") as [[|b p]|];
    cbn; intros H; try discriminate;
    (split; [reflexivity|]; split; [rewrite <- !app_assoc; reflexivity|];
     repeat split).
Qed.

(** Witness of [register_rejects_missing_fields]: no password. *)
Lemma register_rejects_missing_fields_witness :
  (not_ (dict_get [("username", "alice")] "username")
   || not_ (dict_get [("username", "alice")] "password"))%bool = true /\
  register sample_hash (Some [("username", "alice")]) empty_world
  = (Ok (error_body "사용자명과 비밀번호는 필수입니다", 400%nat), empty_world).
Proof.
  assert ((not_ (dict_get [("username", "alice")] "username")
           || not_ (dict_get [("username", "alice")] "password"))%bool = true) as H
      by reflexivity.
  split; [exact H|].
  exact (register_rejects_missing_fields sample_hash [("username", "alice")]
           empty_world H).
Defined.

(** Witness of [login_rejects_missing_fields]: an empty password. *)
Lemma login_rejects_missing_fields_witness :
  let data := [("username", "alice"); ("password", "")] in
  (not_ (dict_get data "username") || not_ (dict_get data "password"))%bool = true /\
  value (login sample_dumps sample_check (Some data) "t0") alice_registered
  = Ok (error_body "사용자명과 비밀번호는 필수입니다", 400%nat).
Proof.
  cbv zeta.
  assert ((not_ (dict_get [("username", "alice"); ("password", "")] "username")
           || not_ (dict_get [("username", "alice"); ("password", "")] "password"))%bool
          = true) as H by reflexivity.
  split; [exact H|].
  apply (login_rejects_missing_fields sample_dumps sample_check
           [("username", "alice"); ("password", "")] "t0" alice_registered H).
Defined.
